(** * AI-GEO middleware: fingerprint, credit ledger and orchestrator

    A shallow embedding of the decision core of the repository:
    - [app/utils/hasher.ts]           ([generateProductHash]),
    - [app/services/credit.server.ts] ([checkBalance], [deductCredit],
      [addCredits], [getBalance]),
    - [app/services/ai.server.ts]     ([generateProductSchema] with its
      prompt builders and its Zod schema),
    together with the two tables of the Prisma migrations ([Shop],
    [ProductState]).

    Conventions.
    - A JavaScript string is a [string] holding the UTF-8 bytes of a
      well-formed text, which is what [Hash.update] feeds to the digest;
      an integer-valued [number] is a [Z].
    - An [async] function is a function of the database: it returns how
      its promise settles, the database it leaves behind and the calls it
      made at the service boundaries, in order.  Every [await] completes
      before the next statement runs, as in the source.
    - The libraries the source calls are embedded by their contracts:
      SHA-256 after FIPS 180-4, [JSON.stringify], the Prisma client on the
      [Shop] table (a [create] of an existing key and an [update] of a
      missing one reject, nothing else does), the Zod combinators, and
      [generateObject], whose answer and duration belong to the
      environment: the model's response is a parameter, and so is what
      other writers do to the database while the call is awaited. *)

From Stdlib Require Import ZArith List Ascii String DecimalString Lia Bool.
From stdpp Require Import base gmap strings.

Import ListNotations.
Set Warnings "-register-all".
Local Open Scope Z_scope.
Local Open Scope list_scope.

(* ===================================================================== *)
(** * Text helpers *)
(* ===================================================================== *)

Definition DQUOTE : ascii := "034"%char.
Definition BACKSLASH : ascii := "092"%char.
Definition NEWLINE : string := String "010"%char EmptyString.

(** The bytes [Hash.update(text)] hands to the digest. *)
Definition bytes_of_string (s : string) : list Z :=
  map (fun c => Z.of_N (N_of_ascii c)) (list_ascii_of_string s).

(** Lowercase hexadecimal digit of a nibble. *)
Definition hexdigit (n : Z) : ascii :=
  if n <? 10 then ascii_of_N (Z.to_N (48 + n)) else ascii_of_N (Z.to_N (87 + n)).

Definition is_lower_hex (c : ascii) : bool :=
  let n := N_of_ascii c in
  ((48 <=? n)%N && (n <=? 57)%N) || ((97 <=? n)%N && (n <=? 102)%N).

(* ===================================================================== *)
(** * SHA-256 (FIPS 180-4), as [createHash('sha256')] computes it *)
(* ===================================================================== *)

Module Sha256.

Definition mask32 : Z := 0xffffffff.
Definition wrap (x : Z) : Z := Z.land x mask32.
Definition add32 (x y : Z) : Z := wrap (x + y).
Definition rotr (n x : Z) : Z :=
  Z.lor (Z.shiftr x n) (wrap (Z.shiftl x (32 - n))).
Definition not32 (x : Z) : Z := Z.lxor x mask32.

Definition Ch (x y z : Z) : Z := Z.lxor (Z.land x y) (Z.land (not32 x) z).
Definition Maj (x y z : Z) : Z :=
  Z.lxor (Z.lxor (Z.land x y) (Z.land x z)) (Z.land y z).
Definition Sigma0 (x : Z) : Z := Z.lxor (Z.lxor (rotr 2 x) (rotr 13 x)) (rotr 22 x).
Definition Sigma1 (x : Z) : Z := Z.lxor (Z.lxor (rotr 6 x) (rotr 11 x)) (rotr 25 x).
Definition sigma0 (x : Z) : Z := Z.lxor (Z.lxor (rotr 7 x) (rotr 18 x)) (Z.shiftr x 3).
Definition sigma1 (x : Z) : Z := Z.lxor (Z.lxor (rotr 17 x) (rotr 19 x)) (Z.shiftr x 10).

(** The first 64 primes, by trial division. *)
Definition is_prime (n : Z) : bool :=
  forallb (fun k => negb (n mod Z.of_nat k =? 0)) (seq 2 (Z.to_nat n - 2)).

Definition primes : list Z :=
  Eval vm_compute in filter is_prime (map Z.of_nat (seq 2 310)).

(** Integer cube root, one bit at a time from bit [bits - 1] down. *)
Fixpoint cbrt (bits : nat) (n root : Z) : Z :=
  match bits with
  | O => root
  | S bits' =>
      let candidate := root + 2 ^ Z.of_nat bits' in
      if candidate ^ 3 <=? n then cbrt bits' n candidate else cbrt bits' n root
  end.

(** The round constants: the first 32 bits of the fractional parts of the
    cube roots of the first 64 primes. *)
Definition K : list Z :=
  Eval vm_compute in map (fun p => wrap (cbrt 36 (p * 2 ^ 96) 0)) primes.

(** The eight working words. *)
Record state := State { a : Z; b : Z; c : Z; d : Z; e : Z; f : Z; g : Z; h : Z }.

(** The initial words: the first 32 bits of the fractional parts of the
    square roots of the first 8 primes. *)
Definition frac_sqrt (p : Z) : Z := wrap (Z.sqrt (p * 2 ^ 64)).

Definition H0 : state :=
  Eval vm_compute in
    State (frac_sqrt 2) (frac_sqrt 3) (frac_sqrt 5) (frac_sqrt 7)
          (frac_sqrt 11) (frac_sqrt 13) (frac_sqrt 17) (frac_sqrt 19).

(** Big-endian bytes of [x], [n] of them. *)
Fixpoint be_bytes (n : nat) (x : Z) : list Z :=
  match n with
  | O => []
  | S n' => Z.land (Z.shiftr x (8 * Z.of_nat n')) 0xff :: be_bytes n' x
  end.

(** Padding: a 1 bit, zeros up to 56 mod 64, the bit length on 8 bytes. *)
Definition pad (msg : list Z) : list Z :=
  let len := Z.of_nat (length msg) in
  msg ++ [0x80] ++ repeat 0 (Z.to_nat ((55 - len) mod 64)) ++ be_bytes 8 (8 * len).

Fixpoint words (bs : list Z) : list Z :=
  match bs with
  | b3 :: b2 :: b1 :: b0 :: rest =>
      Z.lor (Z.lor (Z.shiftl b3 24) (Z.shiftl b2 16)) (Z.lor (Z.shiftl b1 8) b0)
      :: words rest
  | _ => []
  end.

Fixpoint blocks (fuel : nat) (ws : list Z) : list (list Z) :=
  match fuel, ws with
  | S fuel', _ :: _ => firstn 16 ws :: blocks fuel' (skipn 16 ws)
  | _, _ => []
  end.

Definition extend (w : list Z) (t : nat) : list Z :=
  let at_ i := nth (t - i) w 0 in
  w ++ [add32 (add32 (sigma1 (at_ 2%nat)) (at_ 7%nat))
              (add32 (sigma0 (at_ 15%nat)) (at_ 16%nat))].

Definition schedule (block : list Z) : list Z :=
  fold_left extend (seq 16 48) block.

Definition round (s : state) (kw : Z * Z) : state :=
  let T1 := add32 (add32 (add32 (h s) (Sigma1 (e s))) (Ch (e s) (f s) (g s)))
                  (add32 (fst kw) (snd kw)) in
  let T2 := add32 (Sigma0 (a s)) (Maj (a s) (b s) (c s)) in
  State (add32 T1 T2) (a s) (b s) (c s) (add32 (d s) T1) (e s) (f s) (g s).

Definition compress (s : state) (block : list Z) : state :=
  let s' := fold_left round (combine K (schedule block)) s in
  State (add32 (a s) (a s')) (add32 (b s) (b s')) (add32 (c s) (c s'))
        (add32 (d s) (d s')) (add32 (e s) (e s')) (add32 (f s) (f s'))
        (add32 (g s) (g s')) (add32 (h s) (h s')).

Definition digest (msg : list Z) : state :=
  let ws := words (pad msg) in
  fold_left compress (blocks (length ws) ws) H0.

Definition hex_word (w : Z) : list ascii :=
  map (fun k => hexdigit (Z.land (Z.shiftr w k) 15)) [28; 24; 20; 16; 12; 8; 4; 0].

(** [.digest('hex')] *)
Definition hex (s : state) : string :=
  string_of_list_ascii
    (hex_word (a s) ++ hex_word (b s) ++ hex_word (c s) ++ hex_word (d s) ++
     hex_word (e s) ++ hex_word (f s) ++ hex_word (g s) ++ hex_word (h s)).

End Sha256.

(** [createHash('sha256').update(text).digest('hex')] *)
Definition sha256_hex (text : string) : string :=
  Sha256.hex (Sha256.digest (bytes_of_string text)).




(* ===================================================================== *)
(** * JSON values and [JSON.stringify] *)
(* ===================================================================== *)

(** Numbers are restricted to the integers; an object is its list of
    properties in insertion order. *)
Inductive json :=
| JNull
| JBool (b : bool)
| JNumber (n : Z)
| JString (s : string)
| JArray (items : list json)
| JObject (props : list (string * json)).

Module JSON.

Definition escape (c : ascii) : string := String BACKSLASH (String c EmptyString).

(** One character of [QuoteJSONString]: the short escapes, [\u00xx] for
    the other control characters, everything else as it is. *)
Definition quote_char (c : ascii) : string :=
  let n := Z.of_N (N_of_ascii c) in
  if n =? 8 then escape "b"
  else if n =? 9 then escape "t"
  else if n =? 10 then escape "n"
  else if n =? 12 then escape "f"
  else if n =? 13 then escape "r"
  else if n =? 34 then escape DQUOTE
  else if n =? 92 then escape BACKSLASH
  else if n <? 32 then
    String BACKSLASH
      (String "u" (String "0" (String "0"
        (String (hexdigit (Z.shiftr n 4)) (String (hexdigit (Z.land n 15)) EmptyString)))))
  else String c EmptyString.

Fixpoint quote_chars (s : string) : string :=
  match s with
  | EmptyString => EmptyString
  | String c rest => quote_char c +:+ quote_chars rest
  end.

Definition quote (s : string) : string :=
  String DQUOTE (quote_chars s +:+ String DQUOTE EmptyString).

Definition number (n : Z) : string := NilZero.string_of_int (Z.to_int n).

Fixpoint stringify (v : json) : string :=
  match v with
  | JNull => "null"
  | JBool true => "true"
  | JBool false => "false"
  | JNumber n => number n
  | JString s => quote s
  | JArray items =>
      "[" +:+
      (fix elements (l : list json) : string :=
         match l with
         | [] => EmptyString
         | [x] => stringify x
         | x :: rest => stringify x +:+ "," +:+ elements rest
         end) items
      +:+ "]"
  | JObject props =>
      "{" +:+
      (fix members (l : list (string * json)) : string :=
         match l with
         | [] => EmptyString
         | [(k, x)] => quote k +:+ ":" +:+ stringify x
         | (k, x) :: rest => quote k +:+ ":" +:+ stringify x +:+ "," +:+ members rest
         end) props
      +:+ "}"
  end.

(** Property read [obj.key]: [None] is JavaScript's [undefined]. *)
Fixpoint get (key : string) (props : list (string * json)) : option json :=
  match props with
  | [] => None
  | (k, v) :: rest => if String.eqb k key then Some v else get key rest
  end.

(** Reading back what [quote_char] wrote (used to show that quoting loses
    nothing): the value of a hexadecimal digit, and the first character of
    a quoted text with the text that follows it; there is none at the
    closing quote. *)
Definition unhex (c : ascii) : Z :=
  let n := Z.of_N (N_of_ascii c) in
  if n <? 58 then n - 48 else n - 87.

Definition read_char (s : string) : option (ascii * string) :=
  match s with
  | EmptyString => None
  | String c rest =>
      if Ascii.eqb c DQUOTE then None
      else if Ascii.eqb c BACKSLASH then
        match rest with
        | EmptyString => None
        | String e rest1 =>
            if Ascii.eqb e "u" then
              match rest1 with
              | String _ (String _ (String hi (String lo rest2))) =>
                  Some (ascii_of_N (Z.to_N (16 * unhex hi + unhex lo)), rest2)
              | _ => None
              end
            else if Ascii.eqb e "b" then Some ("008"%char, rest1)
            else if Ascii.eqb e "t" then Some ("009"%char, rest1)
            else if Ascii.eqb e "n" then Some ("010"%char, rest1)
            else if Ascii.eqb e "f" then Some ("012"%char, rest1)
            else if Ascii.eqb e "r" then Some ("013"%char, rest1)
            else Some (e, rest1)
        end
      else Some (c, rest)
  end.

End JSON.

(* ===================================================================== *)
(** * app/utils/hasher.ts *)
(* ===================================================================== *)

Module Hasher.

(** [interface Product]: the three fields the function reads; [extra]
    holds whatever other properties (price, sku, images...) the object
    passed in happens to carry. *)
Record Product := {
  title : string;
  description : string;
  vendor : string;
  extra : list (string * json)
}.

Definition normalized (product : Product) : string :=
  JSON.stringify
    (JObject [("description"%string, JString (description product));
              ("title"%string, JString (title product));
              ("vendor"%string, JString (vendor product))]).

Definition generateProductHash (product : Product) : string :=
  sha256_hex (normalized product).

(** The canonical serialization, spelled out. *)
Definition canonical (d t v : string) : string :=
  "{" +:+ JSON.quote "description" +:+ ":" +:+ JSON.quote d +:+ "," +:+
          JSON.quote "title" +:+ ":" +:+ JSON.quote t +:+ "," +:+
          JSON.quote "vendor" +:+ ":" +:+ JSON.quote v +:+ "}".

Definition sampleProduct : Product :=
  {| title := "Handcrafted Leather Wallet";
     description := "Premium full-grain leather wallet with RFID blocking technology.";
     vendor := "Artisan Goods Co.";
     extra := [] |}.

End Hasher.

(** Reading the canonical text back.  [Canonical.read] accepts exactly the
    texts made of an opening brace, the three members description, title
    and vendor in that order, each a key, a colon and a JSON string
    literal, separated by commas, and a closing brace with nothing after
    it; it gives the three decoded values.  Inside a literal a raw control
    character, a raw quote and an unfinished escape are refused, and
    [\u00xx] stands for the byte [xx].  Nothing here is called by
    [generateProductHash]: it is what a JSON reader makes of its input. *)
Module Canonical.

(** A text between double quotes, as it is. *)
Definition literal (s : string) : string :=
  String DQUOTE (s +:+ String DQUOTE EmptyString).

(** A character that [QuoteJSONString] leaves as it is. *)
Definition plain_char (c : ascii) : bool :=
  let n := Z.of_N (N_of_ascii c) in
  (32 <=? n) && negb (n =? 34) && negb (n =? 92).

Definition plain (s : string) : bool := forallb plain_char (list_ascii_of_string s).

Definition unescape (e : ascii) : option ascii :=
  if Ascii.eqb e "b" then Some "008"%char
  else if Ascii.eqb e "t" then Some "009"%char
  else if Ascii.eqb e "n" then Some "010"%char
  else if Ascii.eqb e "f" then Some "012"%char
  else if Ascii.eqb e "r" then Some "013"%char
  else if Ascii.eqb e DQUOTE || Ascii.eqb e BACKSLASH || Ascii.eqb e "/" then Some e
  else None.

Definition is_hex (c : ascii) : bool :=
  let n := Z.of_N (N_of_ascii c) in
  ((48 <=? n) && (n <=? 57)) || ((97 <=? n) && (n <=? 102)).

Definition push (c : option ascii) (tail : option (string * string))
    : option (string * string) :=
  match c, tail with
  | Some c, Some (body, rest) => Some (String c body, rest)
  | _, _ => None
  end.

(** The characters up to the closing quote, decoded, and the text after
    that quote. *)
Fixpoint read_text (s : string) : option (string * string) :=
  match s with
  | EmptyString => None
  | String c rest =>
      if Ascii.eqb c DQUOTE then Some (EmptyString, rest)
      else if Ascii.eqb c BACKSLASH then
        match rest with
        | EmptyString => None
        | String e rest1 =>
            if Ascii.eqb e "u" then
              match rest1 with
              | String z1 (String z2 (String hi (String lo rest2))) =>
                  if Ascii.eqb z1 "0" && Ascii.eqb z2 "0" && is_hex hi && is_hex lo
                  then push (Some (ascii_of_N (Z.to_N (16 * JSON.unhex hi + JSON.unhex lo))))
                         (read_text rest2)
                  else None
              | _ => None
              end
            else push (unescape e) (read_text rest1)
        end
      else if Z.of_N (N_of_ascii c) <? 32 then None
      else push (Some c) (read_text rest)
  end.

Definition read_string (s : string) : option (string * string) :=
  match s with
  | String c rest => if Ascii.eqb c DQUOTE then read_text rest else None
  | EmptyString => None
  end.

(** [text] without the [expected] characters it starts with. *)
Fixpoint expect (expected text : string) : option string :=
  match expected, text with
  | EmptyString, _ => Some text
  | String a expected', String b text' =>
      if Ascii.eqb a b then expect expected' text' else None
  | String _ _, EmptyString => None
  end.

Definition read_member (key text : string) : option (string * string) :=
  text ← expect (literal key +:+ ":") text;
  read_string text.

Definition read (text : string) : option (string * string * string) :=
  text ← expect "{" text;
  '(d, text) ← read_member "description" text;
  text ← expect "," text;
  '(t, text) ← read_member "title" text;
  text ← expect "," text;
  '(v, text) ← read_member "vendor" text;
  text ← expect "}" text;
  match text with
  | EmptyString => Some (d, t, v)
  | String _ _ => None
  end.

(** A field where every escape is needed: quotes, a backslash, a newline,
    a tab, the control characters 1 and 31, the character 127 and the two
    bytes of an e with an acute accent. *)
Definition escapedTitle : string :=
  string_of_list_ascii
    (map ascii_of_N
       [72; 101; 32; 115; 97; 105; 100; 32; 34; 104; 105; 34; 92; 32;
        10; 9; 1; 31; 127; 195; 169]%N).

End Canonical.


(* ===================================================================== *)
(** * The database (prisma/migrations) *)
(* ===================================================================== *)

(** Table [Shop], keyed by its unique [domain].  The columns [id],
    [createdAt] and [updatedAt] are never read by the services. *)
Record Shop := {
  credits : Z;
  brandVoice : option string;
  isOnboarded : bool
}.

(** Table [ProductState], keyed by its unique [shopifyProductId]. *)
Record ProductState := {
  shop : string;
  contentHash : string;
  schemaBlob : option string;
  isSynced : bool
}.

Record Db := {
  shops : gmap string Shop;
  productStates : gmap string ProductState
}.

(** [CREATE TABLE "Shop"]: [credits INTEGER NOT NULL DEFAULT 10],
    [brandVoice TEXT] (null), [isOnboarded BOOLEAN NOT NULL DEFAULT false]. *)
Definition DEFAULT_CREDITS : Z := 10.

Definition default_shop : Shop :=
  {| credits := DEFAULT_CREDITS; brandVoice := None; isOnboarded := false |}.

Definition with_shops (db : Db) (t : gmap string Shop) : Db :=
  {| shops := t; productStates := productStates db |}.

Definition set_credits (s : Shop) (n : Z) : Shop :=
  {| credits := n; brandVoice := brandVoice s; isOnboarded := isOnboarded s |}.

(* ===================================================================== *)
(** * Promises over the database, with the calls they make *)
(* ===================================================================== *)

(** A JavaScript [Error]. *)
Record Error := { message : string }.

Inductive Settled (A : Type) :=
| Fulfilled (value : A)
| Rejected (reason : Error).
Arguments Fulfilled {A} value.
Arguments Rejected {A} reason.

(** Results of the two services, as their interfaces declare them. *)
Record CheckBalanceResult := { hasCredits : bool; balance : Z }.
Record DeductCreditResult := { success : bool; newBalance : Z }.

Module Brand.
Record t := { name : string }.
End Brand.

Module Offer.
Record t := {
  price : option string;
  priceCurrency : option string;
  availability : option string
}.
End Offer.

(** [z.infer<typeof ProductSchemaZod>]; the literal fields [@context] and
    [@type] have one value each and are left out. *)
Module ProductSchema.
Record t := {
  name : string;
  description : string;
  brand : Brand.t;
  sku : option string;
  category : option string;
  material : option string;
  color : option string;
  offers : option Offer.t
}.
End ProductSchema.

(** The argument of [generateObject]; its [schema] is passed next to it. *)
Record GenerateObjectRequest := { model : string; system : string; prompt : string }.

(** The service boundaries the orchestrator crosses. *)
Inductive Call :=
| CheckBalance (shopId : string)
| DeductCredit (shopId : string) (amount : Z)
| AddCredits (shopId : string) (amount : Z)
| GenerateObject (request : GenerateObjectRequest).

Inductive Answer :=
| ABalance (r : CheckBalanceResult)
| ADeduct (r : DeductCreditResult)
| AObject (object : ProductSchema.t).

(** What a spy on the boundary records: a call starts, then it returns or
    throws. *)
Inductive Event :=
| Invoked (c : Call)
| Returned (c : Call) (a : Answer)
| Threw (c : Call) (reason : Error).

Record Run (A : Type) := {
  settled : Settled A;
  after : Db;
  calls : list Event
}.
Arguments settled {A} _.
Arguments after {A} _.
Arguments calls {A} _.

Definition Async (A : Type) : Type := Db -> Run A.

#[global] Instance async_ret : MRet Async := fun A a db =>
  {| settled := Fulfilled a; after := db; calls := [] |}.

(** [await m] then continue; a rejection skips the continuation and keeps
    whatever [m] wrote. *)
#[global] Instance async_bind : MBind Async := fun A B k m db =>
  let r := m db in
  match settled r with
  | Fulfilled a =>
      let r' := k a (after r) in
      {| settled := settled r'; after := after r'; calls := calls r ++ calls r' |}
  | Rejected reason =>
      {| settled := Rejected reason; after := after r; calls := calls r |}
  end.

Definition throw {A : Type} (reason : Error) : Async A := fun db =>
  {| settled := Rejected reason; after := db; calls := [] |}.

(** [try { m } catch (error) { handler error }] *)
Definition try_catch {A : Type} (m : Async A) (handler : Error -> Async A) : Async A :=
  fun db =>
    let r := m db in
    match settled r with
    | Fulfilled _ => r
    | Rejected reason =>
        let r' := handler reason (after r) in
        {| settled := settled r'; after := after r'; calls := calls r ++ calls r' |}
    end.

(** Record entry to and exit from a boundary function. *)
Definition traced {A : Type} (c : Call) (answer : A -> Answer) (m : Async A) : Async A :=
  fun db =>
    let r := m db in
    {| settled := settled r;
       after := after r;
       calls := Invoked c :: calls r ++
                [match settled r with
                 | Fulfilled a => Returned c (answer a)
                 | Rejected reason => Threw c reason
                 end] |}.

(* ===================================================================== *)
(** * The Prisma client on [Shop] ([~/db.server]) *)
(* ===================================================================== *)

Module prisma.

(** P2025: the record an [update] depends on does not exist. *)
Definition RecordNotFound : Error := {| message := "Record to update not found." |}.
(** P2002: [Shop_domain_key] *)
Definition UniqueConstraint : Error :=
  {| message := "Unique constraint failed on the fields: (`domain`)" |}.

(** [prisma.shop.findUnique({ where: { domain } })] *)
Definition findUnique (domain : string) : Async (option Shop) := fun db =>
  {| settled := Fulfilled (shops db !! domain); after := db; calls := [] |}.

(** [prisma.shop.create({ data })] *)
Definition create (domain : string) (data : Shop) : Async Shop := fun db =>
  match shops db !! domain with
  | Some _ => {| settled := Rejected UniqueConstraint; after := db; calls := [] |}
  | None =>
      {| settled := Fulfilled data;
         after := with_shops db (<[domain := data]> (shops db));
         calls := [] |}
  end.

(** [prisma.shop.update({ where: { domain }, data })], [data] being a
    change of the row read in the same statement. *)
Definition update (domain : string) (data : Shop -> Shop) : Async Shop := fun db =>
  match shops db !! domain with
  | None => {| settled := Rejected RecordNotFound; after := db; calls := [] |}
  | Some row =>
      {| settled := Fulfilled (data row);
         after := with_shops db (<[domain := data row]> (shops db));
         calls := [] |}
  end.

(** [prisma.shop.upsert({ where: { domain }, create, update })] *)
Definition upsert (domain : string) (create : Shop) (update : Shop -> Shop) : Async Shop :=
  fun db =>
    let row := match shops db !! domain with
               | None => create
               | Some row => update row
               end in
    {| settled := Fulfilled row;
       after := with_shops db (<[domain := row]> (shops db));
       calls := [] |}.

End prisma.

(* ===================================================================== *)
(** * app/services/credit.server.ts *)
(* ===================================================================== *)

Definition checkBalance (shopId : string) : Async CheckBalanceResult :=
  traced (CheckBalance shopId) ABalance (
    shop ← prisma.findUnique shopId;
    match shop with
    | None =>
        newShop ← prisma.create shopId default_shop;
        mret {| hasCredits := 0 <? credits newShop; balance := credits newShop |}
    | Some shop =>
        mret {| hasCredits := 0 <? credits shop; balance := credits shop |}
    end).

(** [amount] defaults to 1 in the source; every caller here passes it. *)
Definition deductCredit (shopId : string) (amount : Z) : Async DeductCreditResult :=
  traced (DeductCredit shopId amount) ADeduct (
    try_catch
      (shop ← prisma.update shopId (fun row => set_credits row (credits row - amount));
       mret {| success := true; newBalance := credits shop |})
      (fun error => mret {| success := false; newBalance := 0 |})).

Definition addCredits (shopId : string) (amount : Z) : Async DeductCreditResult :=
  traced (AddCredits shopId amount) ADeduct (
    try_catch
      (shop ← prisma.upsert shopId
                (set_credits default_shop (10 + amount))
                (fun row => set_credits row (credits row + amount));
       mret {| success := true; newBalance := credits shop |})
      (fun error => mret {| success := false; newBalance := 0 |})).

Definition getBalance (shopId : string) : Async Z :=
  result ← checkBalance shopId;
  mret (balance result).

(** A sequence of debits on one tenant, one after the other. *)
Fixpoint deductAll (shopId : string) (amounts : list Z) : Async (list DeductCreditResult) :=
  match amounts with
  | [] => mret []
  | amount :: rest =>
      r ← deductCredit shopId amount;
      rs ← deductAll shopId rest;
      mret (r :: rs)
  end.

(* ===================================================================== *)
(** * Zod schemas *)
(* ===================================================================== *)

(** A schema parses a possibly absent property ([None] is [undefined]) into
    a typed value, or fails. *)
Module z.

Definition Schema (A : Type) : Type := option json -> option A.

Definition string : Schema String.string := fun input =>
  match input with
  | Some (JString s) => Some s
  | _ => None
  end.

Definition literal (value : String.string) : Schema unit := fun input =>
  match input with
  | Some (JString s) => if String.eqb s value then Some tt else None
  | _ => None
  end.

Definition optional {A : Type} (inner : Schema A) : Schema (option A) := fun input =>
  match input with
  | None => Some None
  | Some _ => Some <$> inner input
  end.

(** [z.object(shape)]: unknown keys are dropped. *)
Definition object {A : Type} (shape : list (String.string * json) -> option A) : Schema A :=
  fun input =>
    match input with
    | Some (JObject props) => shape props
    | _ => None
    end.

End z.

(* ===================================================================== *)
(** * app/services/ai.server.ts *)
(* ===================================================================== *)

Definition BrandZod : z.Schema Brand.t :=
  z.object (fun props =>
    z.literal "Brand" (JSON.get "@type" props);;
    name ← z.string (JSON.get "name" props);
    Some {| Brand.name := name |}).

Definition OfferZod : z.Schema Offer.t :=
  z.object (fun props =>
    z.literal "Offer" (JSON.get "@type" props);;
    price ← z.optional z.string (JSON.get "price" props);
    priceCurrency ← z.optional z.string (JSON.get "priceCurrency" props);
    availability ← z.optional z.string (JSON.get "availability" props);
    Some {| Offer.price := price;
            Offer.priceCurrency := priceCurrency;
            Offer.availability := availability |}).

Definition ProductSchemaZod : z.Schema ProductSchema.t :=
  z.object (fun props =>
    z.literal "https://schema.org" (JSON.get "@context" props);;
    z.literal "Product" (JSON.get "@type" props);;
    name ← z.string (JSON.get "name" props);
    description ← z.string (JSON.get "description" props);
    brand ← BrandZod (JSON.get "brand" props);
    sku ← z.optional z.string (JSON.get "sku" props);
    category ← z.optional z.string (JSON.get "category" props);
    material ← z.optional z.string (JSON.get "material" props);
    color ← z.optional z.string (JSON.get "color" props);
    offers ← z.optional OfferZod (JSON.get "offers" props);
    Some {| ProductSchema.name := name;
            ProductSchema.description := description;
            ProductSchema.brand := brand;
            ProductSchema.sku := sku;
            ProductSchema.category := category;
            ProductSchema.material := material;
            ProductSchema.color := color;
            ProductSchema.offers := offers |}).

Module ProductInput.
Record t := {
  title : string;
  description : string;
  vendor : string;
  price : option string;
  sku : option string
}.
End ProductInput.

Module GenerateSchemaInput.
Record t := {
  shopId : string;
  product : ProductInput.t;
  brandVoice : string
}.
End GenerateSchemaInput.

Record GenerateSchemaResult := {
  schema : ProductSchema.t;
  creditsRemaining : Z
}.

(** What the orchestrator does not control while it awaits the generation:
    what the model sends back, and what other writers do to the database in
    the meantime. *)
Inductive Upstream :=
| Produced (object : json)
| Failed (reason : Error).

Record Env := {
  model_output : GenerateObjectRequest -> Upstream;
  meanwhile : Db -> Db
}.

(** Thrown by [generateObject] when the response does not match the schema. *)
Definition NoObjectGeneratedError : Error :=
  {| message := "No object generated: response did not match schema." |}.

(** [generateObject({ model, schema, system, prompt })] of the AI SDK: the
    model's object is validated against [schema]; an upstream error or an
    invalid object rejects the promise. *)
Definition validated (schema : z.Schema ProductSchema.t) (response : Upstream)
    : Settled ProductSchema.t :=
  match response with
  | Failed reason => Rejected reason
  | Produced object =>
      match schema (Some object) with
      | Some valid => Fulfilled valid
      | None => Rejected NoObjectGeneratedError
      end
  end.

Definition generateObject (env : Env) (schema : z.Schema ProductSchema.t)
    (request : GenerateObjectRequest) : Async ProductSchema.t :=
  traced (GenerateObject request) AObject (fun db =>
    {| settled := validated schema (model_output env request);
       after := meanwhile env db;
       calls := [] |}).

(** A template literal, line by line. *)
Fixpoint lines (l : list string) : string :=
  match l with
  | [] => EmptyString
  | [x] => x
  | x :: rest => x +:+ NEWLINE +:+ lines rest
  end.

(** [value ? `label${value}` : ''] for an optional string. *)
Definition labelled (label : string) (value : option string) : string :=
  match value with
  | None => EmptyString
  | Some EmptyString => EmptyString
  | Some v => label +:+ v
  end.

Definition buildSystemPrompt (brandVoice : string) : string :=
  lines [
    "You are a JSON-LD Schema.org expert. Your task is to generate machine-readable product schemas that are optimized for:";
    "1. LLM search engines (ChatGPT, Perplexity)";
    "2. Google Rich Results";
    "3. Voice assistants";
    EmptyString;
    "BRAND VOICE GUIDELINES:";
    brandVoice;
    EmptyString;
    "RULES:";
    "- Output ONLY valid Schema.org Product JSON-LD";
    "- Use the brand voice to inform how you describe the product";
    "- Be factual and avoid hallucination - only use information provided";
    "- Keep descriptions concise but informative";
    "- Include all relevant product attributes" ]%string.

Definition buildUserPrompt (product : ProductInput.t) : string :=
  lines [
    "Generate a JSON-LD Product schema for this product:";
    EmptyString;
    "TITLE: " +:+ ProductInput.title product;
    "DESCRIPTION: " +:+ ProductInput.description product;
    "VENDOR/BRAND: " +:+ ProductInput.vendor product;
    labelled "SKU: " (ProductInput.sku product);
    labelled "PRICE: " (ProductInput.price product);
    EmptyString;
    "Create a Schema.org Product JSON-LD that accurately represents this product." ]%string.

Definition PaymentRequired : Error :=
  {| message := "402 Payment Required: No credits available. Please purchase more credits." |}.

Definition generateProductSchema (env : Env) (input : GenerateSchemaInput.t)
    : Async GenerateSchemaResult :=
  let shopId := GenerateSchemaInput.shopId input in
  let product := GenerateSchemaInput.product input in
  let brandVoice := GenerateSchemaInput.brandVoice input in
  (* STEP 1: Check credits BEFORE calling AI *)
  balance ← checkBalance shopId;
  if negb (hasCredits balance) then throw PaymentRequired
  else
    (* STEP 2: Call AI to generate schema *)
    let systemPrompt := buildSystemPrompt brandVoice in
    let userPrompt := buildUserPrompt product in
    schema ← generateObject env ProductSchemaZod
               {| model := "gpt-4o-mini"; system := systemPrompt; prompt := userPrompt |};
    (* STEP 3: Deduct credits AFTER successful generation *)
    deductResult ← deductCredit shopId 1;
    mret {| schema := schema; creditsRemaining := newBalance deductResult |}.

(** The product as [generateProductHash] sees it. *)
Definition fingerprinted (product : ProductInput.t) : Hasher.Product :=
  {| Hasher.title := ProductInput.title product;
     Hasher.description := ProductInput.description product;
     Hasher.vendor := ProductInput.vendor product;
     Hasher.extra :=
       match ProductInput.price product with
       | Some p => [("price"%string, JString p)]
       | None => []
       end ++
       match ProductInput.sku product with
       | Some s => [("sku"%string, JString s)]
       | None => []
       end |}.

(* ===================================================================== *)
(** * Observations and sample data used in the statements *)
(* ===================================================================== *)

(** The request [generateProductSchema] sends for [input]. *)
Definition requestOf (input : GenerateSchemaInput.t) : GenerateObjectRequest :=
  {| model := "gpt-4o-mini";
     system := buildSystemPrompt (GenerateSchemaInput.brandVoice input);
     prompt := buildUserPrompt (GenerateSchemaInput.product input) |}.

(** The stored balance of a tenant, if the tenant exists. *)
Definition storedBalance (shopId : string) (db : Db) : option Z :=
  credits <$> shops db !! shopId.

(** Every amount is at most the balance current at its call. *)
Fixpoint within_balance (current : Z) (amounts : list Z) : Prop :=
  match amounts with
  | [] => True
  | amount :: rest => amount <= current /\ within_balance (current - amount) rest
  end.

(** The balances a sequence of debits goes through. *)
Fixpoint running_balances (current : Z) (amounts : list Z) : list Z :=
  match amounts with
  | [] => []
  | amount :: rest => (current - amount) :: running_balances (current - amount) rest
  end.

(** The reading of the ledger claim at one call: a debit larger than the
    stored balance is refused and the balance is kept. *)
Definition overdraft_rejected (shopId : string) (amount : Z) (db : Db) : Prop :=
  forall current,
    storedBalance shopId db = Some current ->
    current < amount ->
    exists r,
      settled (deductCredit shopId amount db) = Fulfilled r
      /\ success r = false
      /\ storedBalance shopId (after (deductCredit shopId amount db)) = Some current.

(** The reading of the ledger-fault claim at one run: a debit that reports
    failure makes the orchestrator reject. *)
Definition debit_failure_surfaced (env : Env) (input : GenerateSchemaInput.t) (db : Db)
    : Prop :=
  let run := generateProductSchema env input db in
  forall d,
    In (Returned (DeductCredit (GenerateSchemaInput.shopId input) 1) (ADeduct d)) (calls run) ->
    success d = false ->
    exists reason, settled run = Rejected reason.

(** No other writer touches the database during the generation. *)
Definition quiet (env : Env) : Prop := forall db, meanwhile env db = db.

Module Sample.

Definition shopId : string := "test-shop.myshopify.com".

Definition product : ProductInput.t :=
  {| ProductInput.title := "Handcrafted Leather Wallet";
     ProductInput.description := "Premium full-grain leather wallet with RFID blocking.";
     ProductInput.vendor := "Artisan Goods Co.";
     ProductInput.price := None;
     ProductInput.sku := None |}.

Definition input : GenerateSchemaInput.t :=
  {| GenerateSchemaInput.shopId := shopId;
     GenerateSchemaInput.product := product;
     GenerateSchemaInput.brandVoice :=
       "Professional, luxury-focused, emphasizing craftsmanship" |}.

(** Another product of the same tenant. *)
Definition otherInput : GenerateSchemaInput.t :=
  {| GenerateSchemaInput.shopId := shopId;
     GenerateSchemaInput.product :=
       {| ProductInput.title := "Waxed Canvas Tote";
          ProductInput.description := "Water-resistant tote with leather handles.";
          ProductInput.vendor := "Artisan Goods Co.";
          ProductInput.price := Some "89.00"%string;
          ProductInput.sku := None |};
     GenerateSchemaInput.brandVoice :=
       "Professional, luxury-focused, emphasizing craftsmanship" |}.

(** [mockSchema] of the test suite, as the model sends it. *)
Definition mockSchema : json :=
  JObject [("@context", JString "https://schema.org");
           ("@type", JString "Product");
           ("name", JString "Handcrafted Leather Wallet");
           ("description", JString "Premium full-grain leather wallet with RFID blocking.");
           ("brand", JObject [("@type", JString "Brand");
                              ("name", JString "Artisan Goods Co.")])]%string.

Definition parsedSchema : ProductSchema.t :=
  {| ProductSchema.name := "Handcrafted Leather Wallet";
     ProductSchema.description := "Premium full-grain leather wallet with RFID blocking.";
     ProductSchema.brand := {| Brand.name := "Artisan Goods Co." |};
     ProductSchema.sku := None;
     ProductSchema.category := None;
     ProductSchema.material := None;
     ProductSchema.color := None;
     ProductSchema.offers := None |}.

(** A response with the wrong [@type]. *)
Definition invalidSchema : json :=
  JObject [("@context", JString "https://schema.org");
           ("@type", JString "Thing");
           ("name", JString "Handcrafted Leather Wallet")]%string.

Definition tenant (n : Z) : Shop :=
  {| credits := n; brandVoice := None; isOnboarded := false |}.

(** One tenant with [n] credits, no product scanned. *)
Definition db (n : Z) : Db :=
  {| shops := {[ shopId := tenant n ]}; productStates := ∅ |}.

Definition emptyDb : Db := {| shops := ∅; productStates := ∅ |}.

(** The product already scanned: its stored hash is the hash of its
    current fields, and an artifact is cached. *)
Definition cachedBlob : string := "cached-artifact".

Definition scannedDb (n : Z) : Db :=
  {| shops := {[ shopId := tenant n ]};
     productStates :=
       {[ "gid://shopify/Product/1"%string :=
            {| shop := shopId;
               contentHash := Hasher.generateProductHash (fingerprinted product);
               schemaBlob := Some cachedBlob;
               isSynced := true |} ]} |}.

Definition envOk : Env :=
  {| model_output := fun _ => Produced mockSchema; meanwhile := fun db => db |}.

Definition envUpstreamError : Env :=
  {| model_output := fun _ => Failed {| message := "OpenAI API error" |};
     meanwhile := fun db => db |}.

Definition envInvalid : Env :=
  {| model_output := fun _ => Produced invalidSchema; meanwhile := fun db => db |}.

(** The tenant row is deleted by an administrator while the model runs. *)
Definition envVanish : Env :=
  {| model_output := fun _ => Produced mockSchema;
     meanwhile := fun db => with_shops db (delete shopId (shops db)) |}.

End Sample.

(* ===================================================================== *)
(** * Sequences of runs, and text search *)
(* ===================================================================== *)

(** [haystack.startsWith(needle)] *)
Fixpoint starts_with (needle haystack : string) : bool :=
  match needle, haystack with
  | EmptyString, _ => true
  | String _ _, EmptyString => false
  | String a needle', String b haystack' => Ascii.eqb a b && starts_with needle' haystack'
  end.

(** [haystack.includes(needle)] *)
Fixpoint includes (needle haystack : string) : bool :=
  starts_with needle haystack
  || match haystack with
     | EmptyString => false
     | String _ rest => includes needle rest
     end.

(** [value || fallback] for a nullable string. *)
Definition or_default (value : option string) (fallback : string) : string :=
  match value with
  | None => fallback
  | Some EmptyString => fallback
  | Some v => v
  end.

(** The orchestrator called once per input, one call after the other, on
    the database the previous call left. *)
Fixpoint generateAll (env : Env) (inputs : list GenerateSchemaInput.t) (db : Db)
    : list (Settled GenerateSchemaResult) * Db :=
  match inputs with
  | [] => ([], db)
  | input :: rest =>
      let run := generateProductSchema env input db in
      let later := generateAll env rest (after run) in
      (settled run :: fst later, snd later)
  end.

Definition fulfilled {A : Type} (s : Settled A) : bool :=
  match s with
  | Fulfilled _ => true
  | Rejected _ => false
  end.

(** How many of the runs fulfilled. *)
Fixpoint successes {A : Type} (results : list (Settled A)) : Z :=
  match results with
  | [] => 0
  | r :: rest => (if fulfilled r then 1 else 0) + successes rest
  end.

(** How an optional string property of a parsed object shows in the typed
    value: absent gives [None], a string gives [Some], nothing else
    passes. *)
Definition optional_string (input : option json) (output : option string) : Prop :=
  match input with
  | None => output = None
  | Some (JString s) => output = Some s
  | Some _ => False
  end.

(* ===================================================================== *)
(** * app/utils/schema-sync.server.ts *)
(* ===================================================================== *)

Module MetafieldsSetInput.
Record t := {
  ownerId : string;
  namespace : string;
  key : string;
  type : string;
  value : string
}.
End MetafieldsSetInput.

Module UserError.
Record t := { message : string }.
End UserError.

Module Metafield.
Record t := { id : string }.
End Metafield.

(** The body of the response to [SET_METAFIELD_MUTATION], as its selection
    set shapes it; [None] is a null or absent field. *)
Module MetafieldsSetPayload.
Record t := {
  metafields : option (list Metafield.t);
  userErrors : option (list UserError.t)
}.
End MetafieldsSetPayload.

Module GraphqlData.
Record t := { metafieldsSet : option MetafieldsSetPayload.t }.
End GraphqlData.

Module GraphqlResult.
Record t := { data : option GraphqlData.t }.
End GraphqlResult.

(** What a [catch] clause receives: an [Error] or some other value. *)
Inductive Thrown :=
| ThrownError (error : Error)
| ThrownOther.

(** [await admin.graphql(...)] followed by [await response.json()]: the
    parsed body, or whatever either call threw. *)
Inductive GraphqlReply :=
| Replied (result : GraphqlResult.t)
| Raised (thrown : Thrown).

Module SyncSchemaInput.
Record t := { productId : string; schema : json }.
End SyncSchemaInput.

Module SyncSchemaResult.
Record t := {
  success : bool;
  metafieldId : option string;
  error : option string
}.
End SyncSchemaResult.

Module SchemaSync.

Definition SET_METAFIELD_MUTATION : string :=
  lines [
    "#graphql";
    "  mutation SetProductSchema($metafields: [MetafieldsSetInput!]!) {";
    "    metafieldsSet(metafields: $metafields) {";
    "      metafields {";
    "        id";
    "        namespace";
    "        key";
    "        value";
    "      }";
    "      userErrors {";
    "        field";
    "        message";
    "      }";
    "    }";
    "  }";
    EmptyString ]%string.

(** The [admin] argument: its [graphql] method on a query and the
    [metafields] variable. *)
Definition Admin : Type := string -> list MetafieldsSetInput.t -> GraphqlReply.

Definition syncSchemaToMetafield (admin : Admin) (input : SyncSchemaInput.t)
    : SyncSchemaResult.t :=
  match admin SET_METAFIELD_MUTATION
          [ {| MetafieldsSetInput.ownerId := SyncSchemaInput.productId input;
               MetafieldsSetInput.namespace := "ai_geo";
               MetafieldsSetInput.key := "product_schema";
               MetafieldsSetInput.type := "json";
               MetafieldsSetInput.value := JSON.stringify (SyncSchemaInput.schema input) |} ]
  with
  | Replied result =>
      let data := GraphqlResult.data result ≫= GraphqlData.metafieldsSet in
      match data ≫= MetafieldsSetPayload.userErrors with
      | Some (e :: es) =>
          {| SyncSchemaResult.success := false;
             SyncSchemaResult.metafieldId := None;
             SyncSchemaResult.error :=
               Some (String.concat ", " (map UserError.message (e :: es))) |}
      | _ =>
          {| SyncSchemaResult.success := true;
             SyncSchemaResult.metafieldId :=
               Metafield.id <$> ((data ≫= MetafieldsSetPayload.metafields) ≫= head);
             SyncSchemaResult.error := None |}
      end
  | Raised (ThrownError error) =>
      {| SyncSchemaResult.success := false;
         SyncSchemaResult.metafieldId := None;
         SyncSchemaResult.error := Some (message error) |}
  | Raised ThrownOther =>
      {| SyncSchemaResult.success := false;
         SyncSchemaResult.metafieldId := None;
         SyncSchemaResult.error := Some "Unknown error"%string |}
  end.

Definition removeSchemaFromMetafield (admin : Admin) (productId : string)
    : SyncSchemaResult.t :=
  syncSchemaToMetafield admin
    {| SyncSchemaInput.productId := productId; SyncSchemaInput.schema := JObject [] |}.

End SchemaSync.

(* ===================================================================== *)
(** * app/routes: the dashboard and the onboarding *)
(* ===================================================================== *)

(** What a loader or an action hands back to the router: data to render,
    a thrown redirect, or a thrown error. *)
Inductive Outcome (A : Type) :=
| Rendered (data : A)
| Redirected (path : string)
| Crashed (reason : Error).
Arguments Rendered {A} data.
Arguments Redirected {A} path.
Arguments Crashed {A} reason.

(** Where an outcome redirects to, if it does. *)
Definition redirects {A : Type} (o : Outcome A) : option string :=
  match o with
  | Redirected path => Some path
  | _ => None
  end.

(** An action also leaves a database and crosses service boundaries. *)
Record Visit (A : Type) := {
  response : Outcome A;
  database : Db;
  crossings : list Event
}.
Arguments response {A} _.
Arguments database {A} _.
Arguments crossings {A} _.

(** [BRAND_TONES] and its keys. *)
Module BrandTone.
Inductive t := minimalist | storyteller | enterprise.

Definition label (tone : t) : string :=
  match tone with
  | minimalist => "Minimalist"
  | storyteller => "Storyteller"
  | enterprise => "Enterprise"
  end.

Definition prompt (tone : t) : string :=
  match tone with
  | minimalist =>
      "Be extremely concise. Focus only on factual specifications. No marketing language. Just the facts."
  | storyteller =>
      "Be warm and engaging. Tell the story behind the product. Use inviting language that connects emotionally."
  | enterprise =>
      "Be professional and authoritative. Emphasize quality, reliability, and business value. Formal tone."
  end.
End BrandTone.

(** The first product node of [FIRST_PRODUCT_QUERY]; [amount] is
    [priceRangeV2?.minVariantPrice?.amount] and [url] is
    [featuredImage?.url]. *)
Module ProductNode.
Record t := {
  id : string;
  title : option string;
  description : option string;
  vendor : option string;
  amount : option string;
  url : option string
}.
End ProductNode.

Module ProductData.
Record t := {
  id : string;
  title : string;
  description : string;
  vendor : string;
  price : option string;
  imageUrl : option string
}.
End ProductData.

(** The authenticated [admin] client, by its answers to the two queries
    the routes send: [data.data?.productsCount?.count] and
    [data.data?.products?.edges?.[0]], or the error that [graphql] or
    [response.json()] threw. *)
Module AdminApi.
Record t := {
  productsCount : Settled (option Z);
  firstProduct : Settled (option ProductNode.t)
}.
End AdminApi.

(** [prisma.productState.count({ where })] *)
Definition productState_count (where_ : ProductState -> bool) (db : Db) : nat :=
  size (filter (fun entry : string * ProductState => where_ entry.2 = true)
          (productStates db)).

(** [{ shop: shopDomain, isSynced: synced }] *)
Definition productState_where (shopDomain : string) (synced : bool) (row : ProductState)
    : bool :=
  String.eqb (shop row) shopDomain && Bool.eqb (isSynced row) synced.

Module DashboardData.
Record t := {
  shopDomain : string;
  credits : Z;
  brandVoice : string;
  syncedProducts : nat;
  pendingProducts : nat;
  totalProducts : Z
}.
End DashboardData.

Module Dashboard.

Definition brandVoiceLabel (brandVoice : option string) : string :=
  match brandVoice with
  | None => "Not Set"
  | Some voice =>
      if includes "concise" voice then "Minimalist"
      else if includes "warm" voice then "Storyteller"
      else if includes "professional" voice then "Enterprise"
      else "Not Set"
  end.

(** The loader, from the session [authenticate.admin] returned. *)
Definition loader (admin : AdminApi.t) (shopDomain : string) (db : Db)
    : Outcome DashboardData.t :=
  match settled (prisma.findUnique shopDomain db) with
  | Rejected reason => Crashed reason
  | Fulfilled None => Redirected "/app/onboarding"
  | Fulfilled (Some found) =>
      if negb (isOnboarded found) then Redirected "/app/onboarding"
      else
        let syncedProducts :=
          productState_count (productState_where shopDomain true) db in
        let pendingProducts :=
          productState_count (productState_where shopDomain false) db in
        match AdminApi.productsCount admin with
        | Rejected reason => Crashed reason
        | Fulfilled count =>
            Rendered
              {| DashboardData.shopDomain := shopDomain;
                 DashboardData.credits := credits found;
                 DashboardData.brandVoice := brandVoiceLabel (brandVoice found);
                 DashboardData.syncedProducts := syncedProducts;
                 DashboardData.pendingProducts := pendingProducts;
                 DashboardData.totalProducts := default 0 count |}
        end
  end.

End Dashboard.

Module OnboardingData.
Record t := {
  shopDomain : string;
  product : option ProductData.t;
  credits : Z
}.
End OnboardingData.

(** The fields of the posted form the action reads; [brandTone] is read
    [as BrandTone]. *)
Module FormData.
Record t := {
  intent : option string;
  brandTone : option BrandTone.t;
  product : option string
}.
End FormData.

Module ActionData.
Record t := {
  schema : option ProductSchema.t;
  creditsRemaining : option Z;
  error : option string
}.
End ActionData.

Module Onboarding.

Definition toProductData (node : ProductNode.t) : ProductData.t :=
  {| ProductData.id := ProductNode.id node;
     ProductData.title := or_default (ProductNode.title node) "Untitled Product";
     ProductData.description := or_default (ProductNode.description node) EmptyString;
     ProductData.vendor := or_default (ProductNode.vendor node) "Unknown";
     ProductData.price := ProductNode.amount node;
     ProductData.imageUrl := ProductNode.url node |}.

(** The loader, from the session [authenticate.admin] returned. *)
Definition loader (admin : AdminApi.t) (shopDomain : string) (db : Db)
    : Outcome OnboardingData.t :=
  match settled (prisma.findUnique shopDomain db) with
  | Rejected reason => Crashed reason
  | Fulfilled found =>
      if match found with Some row => isOnboarded row | None => false end
      then Redirected "/app"
      else
        match AdminApi.firstProduct admin with
        | Rejected reason => Crashed reason
        | Fulfilled productEdge =>
            Rendered
              {| OnboardingData.shopDomain := shopDomain;
                 OnboardingData.product := toProductData <$> productEdge;
                 OnboardingData.credits :=
                   match found with Some row => credits row | None => 10 end |}
        end
  end.

Definition failed (text : string) : ActionData.t :=
  {| ActionData.schema := None;
     ActionData.creditsRemaining := None;
     ActionData.error := Some text |}.

Definition intent_is (form : FormData.t) (name : string) : bool :=
  match FormData.intent form with
  | Some value => String.eqb value name
  | None => false
  end.

(** The argument the action passes to [generateProductSchema]. *)
Definition previewInput (shopDomain : string) (brandTone : BrandTone.t)
    (product : ProductData.t) : GenerateSchemaInput.t :=
  {| GenerateSchemaInput.shopId := shopDomain;
     GenerateSchemaInput.product :=
       {| ProductInput.title := ProductData.title product;
          ProductInput.description := ProductData.description product;
          ProductInput.vendor := ProductData.vendor product;
          ProductInput.price := ProductData.price product;
          ProductInput.sku := None |};
     GenerateSchemaInput.brandVoice := BrandTone.prompt brandTone |}.

(** The action, from the session [authenticate.admin] returned.  [parse] is
    [JSON.parse(productJson) as ProductData]: the typed product, or the
    [SyntaxError] thrown. *)
Definition action (parse : string -> Settled ProductData.t) (env : Env)
    (shopDomain : string) (form : FormData.t) (db : Db) : Visit ActionData.t :=
  if intent_is form "generate" then
    match FormData.brandTone form, FormData.product form with
    | Some brandTone, Some (String c rest) =>
        match parse (String c rest) with
        | Rejected reason =>
            {| response := Crashed reason; database := db; crossings := [] |}
        | Fulfilled product =>
            let run :=
              generateProductSchema env (previewInput shopDomain brandTone product) db in
            {| response :=
                 match settled run with
                 | Fulfilled result =>
                     Rendered {| ActionData.schema := Some (schema result);
                                 ActionData.creditsRemaining := Some (creditsRemaining result);
                                 ActionData.error := None |}
                 | Rejected error => Rendered (failed (message error))
                 end;
               database := after run;
               crossings := calls run |}
        end
    | _, _ =>
        {| response := Rendered (failed "Missing required fields");
           database := db; crossings := [] |}
    end
  else if intent_is form "approve" then
    match FormData.brandTone form with
    | None =>
        {| response := Rendered (failed "Please select a brand tone first");
           database := db; crossings := [] |}
    | Some brandTone =>
        let brandVoice := BrandTone.prompt brandTone in
        let saved :=
          prisma.upsert shopDomain
            {| credits := DEFAULT_CREDITS; brandVoice := Some brandVoice;
               isOnboarded := true |}
            (fun row => {| credits := credits row; brandVoice := Some brandVoice;
                           isOnboarded := true |}) db in
        {| response := match settled saved with
                       | Fulfilled _ => Redirected "/app"
                       | Rejected reason => Crashed reason
                       end;
           database := after saved;
           crossings := [] |}
    end
  else
    {| response := Rendered (failed "Unknown action"); database := db; crossings := [] |}.

End Onboarding.

(** Whether the shop has completed the onboarding. *)
Definition onboarded (shopDomain : string) (db : Db) : bool :=
  match shops db !! shopDomain with
  | Some row => isOnboarded row
  | None => false
  end.

Module RouteSample.

Definition node : ProductNode.t :=
  {| ProductNode.id := "gid://shopify/Product/1";
     ProductNode.title := Some EmptyString;
     ProductNode.description := Some "Premium full-grain leather wallet with RFID blocking."%string;
     ProductNode.vendor := None;
     ProductNode.amount := Some "49.00"%string;
     ProductNode.url := None |}.

Definition admin : AdminApi.t :=
  {| AdminApi.productsCount := Fulfilled (Some 3);
     AdminApi.firstProduct := Fulfilled (Some node) |}.

Definition productData : ProductData.t := Onboarding.toProductData node.

(** A [JSON.parse] that reads the posted product back. *)
Definition parse (text : string) : Settled ProductData.t := Fulfilled productData.

Definition generateForm : FormData.t :=
  {| FormData.intent := Some "generate"%string;
     FormData.brandTone := Some BrandTone.storyteller;
     FormData.product := Some "{...}"%string |}.

Definition approveForm : FormData.t :=
  {| FormData.intent := Some "approve"%string;
     FormData.brandTone := Some BrandTone.storyteller;
     FormData.product := None |}.

(** An onboarded shop with 5 credits and one scanned product. *)
Definition onboardedDb : Db :=
  {| shops := {[ Sample.shopId := {| credits := 5;
                                     brandVoice := Some (BrandTone.prompt BrandTone.storyteller);
                                     isOnboarded := true |} ]};
     productStates := productStates (Sample.scannedDb 5) |}.

(** Another request of the same tenant spends a credit while the model
    runs. *)
Definition envRace : Env :=
  {| model_output := fun _ => Produced Sample.mockSchema;
     meanwhile := fun db => after (deductCredit Sample.shopId 1 db) |}.

(** An API that refuses the write with two user errors, and still lists a
    metafield. *)
Definition refusal : GraphqlResult.t :=
  {| GraphqlResult.data :=
       Some {| GraphqlData.metafieldsSet :=
                 Some {| MetafieldsSetPayload.metafields :=
                           Some [ {| Metafield.id := "gid://shopify/Metafield/1" |} ];
                         MetafieldsSetPayload.userErrors :=
                           Some [ {| UserError.message := "Value is invalid JSON." |};
                                  {| UserError.message := "Owner does not exist." |} ] |} |} |}.

Definition refusingAdmin : SchemaSync.Admin := fun _ _ => Replied refusal.

Definition syncInput : SyncSchemaInput.t :=
  {| SyncSchemaInput.productId := "gid://shopify/Product/1";
     SyncSchemaInput.schema := Sample.mockSchema |}.

End RouteSample.

(* ===================================================================== *)
(** * Proof automation *)
(* ===================================================================== *)

(** Running one service body on a database. *)
Ltac unfold_async :=
  unfold traced, try_catch, throw, mbind, async_bind, mret, async_ret,
    prisma.findUnique, prisma.create, prisma.update, prisma.upsert; simpl.

(** Membership in a trace that is known event by event. *)
Ltac in_trace H :=
  cbn [In] in H;
  repeat (destruct H as [H|H]; [try discriminate H|]);
  try contradiction.

(** Splitting a trace that is known event by event around one event. *)
Ltac split_trace H pre :=
  repeat (destruct pre as [|? pre];
          [cbn in H; try discriminate H
          |cbn in H; injection H as ? H; subst]);
  try (destruct pre; discriminate H).

(* ===================================================================== *)
(** * Running the services *)
(* ===================================================================== *)


Lemma bind_fulfilled {A B : Type} (m : Async A) (k : A -> Async B) (db : Db) (a : A) :
  settled (m db) = Fulfilled a ->
  (m ≫= k) db =
    {| settled := settled (k a (after (m db)));
       after := after (k a (after (m db)));
       calls := calls (m db) ++ calls (k a (after (m db))) |}.
Proof. intros H. unfold mbind, async_bind. rewrite H. reflexivity. Qed.

Lemma bind_rejected {A B : Type} (m : Async A) (k : A -> Async B) (db : Db) (reason : Error) :
  settled (m db) = Rejected reason ->
  (m ≫= k) db =
    {| settled := Rejected reason; after := after (m db); calls := calls (m db) |}.
Proof. intros H. unfold mbind, async_bind. rewrite H. reflexivity. Qed.

Lemma checkBalance_existing (shopId : string) (db : Db) (row : Shop) :
  shops db !! shopId = Some row ->
  checkBalance shopId db =
    let r := {| hasCredits := 0 <? credits row; balance := credits row |} in
    {| settled := Fulfilled r;
       after := db;
       calls := [Invoked (CheckBalance shopId); Returned (CheckBalance shopId) (ABalance r)] |}.
Proof.
  intros Hrow. unfold checkBalance. unfold_async. rewrite Hrow. reflexivity.
Qed.

Lemma checkBalance_absent (shopId : string) (db : Db) :
  shops db !! shopId = None ->
  checkBalance shopId db =
    let r := {| hasCredits := true; balance := DEFAULT_CREDITS |} in
    {| settled := Fulfilled r;
       after := with_shops db (<[shopId := default_shop]> (shops db));
       calls := [Invoked (CheckBalance shopId); Returned (CheckBalance shopId) (ABalance r)] |}.
Proof.
  intros Hrow. unfold checkBalance. unfold_async. rewrite Hrow. simpl.
  rewrite Hrow. reflexivity.
Qed.

Lemma deductCredit_existing (shopId : string) (amount : Z) (db : Db) (row : Shop) :
  shops db !! shopId = Some row ->
  deductCredit shopId amount db =
    let r := {| success := true; newBalance := credits row - amount |} in
    {| settled := Fulfilled r;
       after := with_shops db (<[shopId := set_credits row (credits row - amount)]> (shops db));
       calls := [Invoked (DeductCredit shopId amount);
                 Returned (DeductCredit shopId amount) (ADeduct r)] |}.
Proof.
  intros Hrow. unfold deductCredit. unfold_async. rewrite Hrow. reflexivity.
Qed.

Lemma deductCredit_absent (shopId : string) (amount : Z) (db : Db) :
  shops db !! shopId = None ->
  deductCredit shopId amount db =
    let r := {| success := false; newBalance := 0 |} in
    {| settled := Fulfilled r;
       after := db;
       calls := [Invoked (DeductCredit shopId amount);
                 Returned (DeductCredit shopId amount) (ADeduct r)] |}.
Proof.
  intros Hrow. unfold deductCredit. unfold_async. rewrite Hrow. reflexivity.
Qed.

Lemma checkBalance_total (shopId : string) (db : Db) :
  exists r db1,
    checkBalance shopId db =
      {| settled := Fulfilled r;
         after := db1;
         calls := [Invoked (CheckBalance shopId); Returned (CheckBalance shopId) (ABalance r)] |}
    /\ hasCredits r = (0 <? balance r)
    /\ storedBalance shopId db1 = Some (balance r)
    /\ match shops db !! shopId with
       | Some row => db1 = db /\ balance r = credits row
       | None => db1 = with_shops db (<[shopId := default_shop]> (shops db))
                 /\ balance r = DEFAULT_CREDITS
       end.
Proof.
  destruct (shops db !! shopId) as [row|] eqn:Hrow.
  - rewrite (checkBalance_existing _ _ _ Hrow). simpl.
    eexists _, _. split; [reflexivity|]. simpl. repeat split.
    unfold storedBalance. rewrite Hrow. reflexivity.
  - rewrite (checkBalance_absent _ _ Hrow). simpl.
    eexists _, _. split; [reflexivity|]. simpl. repeat split.
    unfold storedBalance. simpl. rewrite lookup_insert_eq. reflexivity.
Qed.

Lemma deductCredit_total (shopId : string) (amount : Z) (db : Db) :
  exists d db2,
    deductCredit shopId amount db =
      {| settled := Fulfilled d;
         after := db2;
         calls := [Invoked (DeductCredit shopId amount);
                   Returned (DeductCredit shopId amount) (ADeduct d)] |}
    /\ match shops db !! shopId with
       | Some row => d = {| success := true; newBalance := credits row - amount |}
       | None => d = {| success := false; newBalance := 0 |} /\ db2 = db
       end.
Proof.
  destruct (shops db !! shopId) as [row|] eqn:Hrow.
  - rewrite (deductCredit_existing _ _ _ _ Hrow). eexists _, _. split; reflexivity.
  - rewrite (deductCredit_absent _ _ _ Hrow). eexists _, _. repeat split; reflexivity.
Qed.

(** The orchestrator, one [await] after the other. *)
Lemma generateProductSchema_unfold (env : Env) (input : GenerateSchemaInput.t) (db : Db) :
  let shopId := GenerateSchemaInput.shopId input in
  generateProductSchema env input db =
    let cb := checkBalance shopId db in
    match settled cb with
    | Rejected reason => {| settled := Rejected reason; after := after cb; calls := calls cb |}
    | Fulfilled balance =>
        if negb (hasCredits balance)
        then {| settled := Rejected PaymentRequired; after := after cb; calls := calls cb |}
        else
          let gen := generateObject env ProductSchemaZod (requestOf input) (after cb) in
          match settled gen with
          | Rejected reason =>
              {| settled := Rejected reason; after := after gen;
                 calls := calls cb ++ calls gen |}
          | Fulfilled valid =>
              let debit := deductCredit shopId 1 (after gen) in
              match settled debit with
              | Rejected reason =>
                  {| settled := Rejected reason; after := after debit;
                     calls := calls cb ++ calls gen ++ calls debit |}
              | Fulfilled d =>
                  {| settled := Fulfilled {| schema := valid;
                                             creditsRemaining := newBalance d |};
                     after := after debit;
                     calls := calls cb ++ calls gen ++ calls debit ++ [] |}
              end
          end
    end.
Proof.
  intros shopId.
  unfold generateProductSchema, mbind, async_bind, mret, async_ret, throw.
  fold shopId. cbv zeta.
  destruct (settled (checkBalance shopId db)) as [bal|]; [|reflexivity].
  destruct (negb (hasCredits bal)); [rewrite app_nil_r; reflexivity|].
  destruct (settled (generateObject env ProductSchemaZod _ _)); [|reflexivity].
  destruct (settled (deductCredit shopId 1 _)); reflexivity.
Qed.

(** The three ways a run of the orchestrator can go. *)
Lemma generateProductSchema_cases (env : Env) (input : GenerateSchemaInput.t) (db : Db) :
  let shopId := GenerateSchemaInput.shopId input in
  let request := requestOf input in
  let run := generateProductSchema env input db in
  exists r db1,
    checkBalance shopId db =
      {| settled := Fulfilled r;
         after := db1;
         calls := [Invoked (CheckBalance shopId); Returned (CheckBalance shopId) (ABalance r)] |}
    /\ ((hasCredits r = false
         /\ run = {| settled := Rejected PaymentRequired;
                     after := db1;
                     calls := [Invoked (CheckBalance shopId);
                               Returned (CheckBalance shopId) (ABalance r)] |})
        \/ (hasCredits r = true
            /\ exists reason,
                 validated ProductSchemaZod (model_output env request) = Rejected reason
                 /\ run = {| settled := Rejected reason;
                             after := meanwhile env db1;
                             calls := [Invoked (CheckBalance shopId);
                                       Returned (CheckBalance shopId) (ABalance r);
                                       Invoked (GenerateObject request);
                                       Threw (GenerateObject request) reason] |})
        \/ (hasCredits r = true
            /\ exists valid d db2,
                 validated ProductSchemaZod (model_output env request) = Fulfilled valid
                 /\ deductCredit shopId 1 (meanwhile env db1) =
                      {| settled := Fulfilled d;
                         after := db2;
                         calls := [Invoked (DeductCredit shopId 1);
                                   Returned (DeductCredit shopId 1) (ADeduct d)] |}
                 /\ run = {| settled := Fulfilled {| schema := valid;
                                                     creditsRemaining := newBalance d |};
                             after := db2;
                             calls := [Invoked (CheckBalance shopId);
                                       Returned (CheckBalance shopId) (ABalance r);
                                       Invoked (GenerateObject request);
                                       Returned (GenerateObject request) (AObject valid);
                                       Invoked (DeductCredit shopId 1);
                                       Returned (DeductCredit shopId 1) (ADeduct d)] |})).
Proof.
  intros shopId request run.
  destruct (checkBalance_total shopId db) as (r & db1 & Hcb & _).
  exists r, db1. split; [exact Hcb|].
  subst run. rewrite generateProductSchema_unfold. fold shopId request.
  cbv zeta. rewrite Hcb. cbn [settled after calls].
  destruct (hasCredits r) eqn:Hcredits; cbn [negb].
  - right.
    unfold generateObject, traced. cbn [settled after calls app].
    destruct (validated ProductSchemaZod (model_output env request)) as [valid|reason] eqn:Hgen.
    + right. split; [reflexivity|].
      destruct (deductCredit_total shopId 1 (meanwhile env db1)) as (d & db2 & Hd & _).
      exists valid, d, db2. split; [reflexivity|]. split; [exact Hd|].
      rewrite Hd. reflexivity.
    + left. split; [reflexivity|]. exists reason. split; reflexivity.
  - left. split; reflexivity.
Qed.

(* ===================================================================== *)
(** * Credit ledger *)
(* ===================================================================== *)



(** C10. [deductCredit] does not look at its amount: on an existing tenant
    every integer amount, zero and negative ones included, gives
    [success = true] and a new balance equal to the previous one minus the
    amount, which is also what is stored; a negative amount raises the
    balance. *)
Theorem deductCredit_unvalidated (shopId : string) (amount : Z) (db : Db) (row : Shop) :
  shops db !! shopId = Some row ->
  let run := deductCredit shopId amount db in
  settled run = Fulfilled {| success := true; newBalance := credits row - amount |}
  /\ storedBalance shopId (after run) = Some (credits row - amount)
  /\ (amount < 0 -> credits row < credits row - amount).
Proof.
  intros Hrow run. subst run. rewrite (deductCredit_existing _ _ _ _ Hrow). cbn.
  repeat split.
  - unfold storedBalance. cbn. rewrite lookup_insert_eq. reflexivity.
  - lia.
Qed.

Lemma deductCredit_unvalidated_witness :
  shops (Sample.db 5) !! Sample.shopId = Some (Sample.tenant 5)
  /\ settled (deductCredit Sample.shopId (-3) (Sample.db 5))
     = Fulfilled {| success := true; newBalance := 8 |}
  /\ storedBalance Sample.shopId (after (deductCredit Sample.shopId (-3) (Sample.db 5)))
     = Some 8.
Proof.
  assert (Hrow : shops (Sample.db 5) !! Sample.shopId = Some (Sample.tenant 5))
    by (vm_compute; reflexivity).
  split; [exact Hrow|].
  destruct (deductCredit_unvalidated Sample.shopId (-3) (Sample.db 5) (Sample.tenant 5) Hrow)
    as (Hr & Hs & _).
  split; [exact Hr | exact Hs].
Defined.

(** C1, as the specification words it, fails: with a balance of 0 a debit
    of 1 is not refused; it succeeds and a balance of -1 is stored. *)
Lemma deductCredit_overdraft_counterexample :
  ~ overdraft_rejected Sample.shopId 1 (Sample.db 0)
  /\ settled (deductCredit Sample.shopId 1 (Sample.db 0))
     = Fulfilled {| success := true; newBalance := -1 |}
  /\ storedBalance Sample.shopId (after (deductCredit Sample.shopId 1 (Sample.db 0)))
     = Some (-1).
Proof.
  split; [|split; vm_compute; reflexivity].
  intros Hclaim.
  destruct (Hclaim 0) as (r & Hr & Hfail & _); [vm_compute; reflexivity | lia |].
  vm_compute in Hr. injection Hr as <-. discriminate Hfail.
Qed.

(** C1, amended.  On an existing tenant every debit of a sequence succeeds
    and stores the previous balance minus its amount; the balance stays at
    or above zero throughout when it starts there and every amount is at
    most the balance current at its call. *)
Theorem deductAll_balances (shopId : string) (amounts : list Z) (db : Db) (row : Shop) :
  shops db !! shopId = Some row ->
  let run := deductAll shopId amounts db in
  exists results,
    settled run = Fulfilled results
    /\ Forall (fun r => success r = true) results
    /\ map newBalance results = running_balances (credits row) amounts
    /\ storedBalance shopId (after run) = Some (fold_left Z.sub amounts (credits row))
    /\ (0 <= credits row ->
        within_balance (credits row) amounts ->
        Forall (fun r => 0 <= newBalance r) results
        /\ 0 <= fold_left Z.sub amounts (credits row)).
Proof.
  revert db row. induction amounts as [|amount rest IH]; intros db row Hrow run.
  - exists []. subst run. cbn. split; [reflexivity|]. split; [constructor|].
    split; [reflexivity|]. split.
    + unfold storedBalance. rewrite Hrow. reflexivity.
    + intros Hpos _. split; [constructor | exact Hpos].
  - pose proof (deductCredit_existing shopId amount db row Hrow) as Hdebit.
    cbv zeta in Hdebit.
    set (db' := with_shops db _) in Hdebit.
    assert (Hrow' : shops db' !! shopId = Some (set_credits row (credits row - amount))).
    { subst db'. cbn. apply lookup_insert_eq. }
    destruct (IH db' _ Hrow') as (results & Hrun & Hok & Hbal & Hstored & Hnonneg).
    cbn [set_credits credits] in Hbal, Hstored, Hnonneg.
    assert (Heq : run =
      {| settled := Fulfilled ({| success := true; newBalance := credits row - amount |}
                               :: results);
         after := after (deductAll shopId rest db');
         calls := calls (deductCredit shopId amount db)
                  ++ calls (deductAll shopId rest db') ++ [] |}).
    { subst run. cbn [deductAll].
      rewrite (bind_fulfilled _ _ db {| success := true; newBalance := credits row - amount |})
        by (rewrite Hdebit; reflexivity).
      replace (after (deductCredit shopId amount db)) with db' by (rewrite Hdebit; reflexivity).
      rewrite (bind_fulfilled _ _ db' results) by exact Hrun.
      reflexivity. }
    rewrite Heq. cbn [settled after].
    eexists. split; [reflexivity|]. split; [|split; [|split]].
    + constructor; [reflexivity | exact Hok].
    + cbn. rewrite Hbal. reflexivity.
    + exact Hstored.
    + intros Hpos [Hle Hrest].
      destruct Hnonneg as [Hall Hlast]; [lia | exact Hrest |].
      split; [|exact Hlast]. constructor; [cbn; lia | exact Hall].
Qed.

Lemma deductAll_balances_witness :
  shops (Sample.db 5) !! Sample.shopId = Some (Sample.tenant 5)
  /\ 0 <= credits (Sample.tenant 5)
  /\ within_balance (credits (Sample.tenant 5)) [2; 0; 3]
  /\ exists results,
       settled (deductAll Sample.shopId [2; 0; 3] (Sample.db 5)) = Fulfilled results
       /\ map newBalance results = [3; 3; 0]
       /\ Forall (fun r => 0 <= newBalance r) results.
Proof.
  assert (Hrow : shops (Sample.db 5) !! Sample.shopId = Some (Sample.tenant 5))
    by (vm_compute; reflexivity).
  assert (Hpos : 0 <= credits (Sample.tenant 5)) by (cbn; lia).
  assert (Hwithin : within_balance (credits (Sample.tenant 5)) [2; 0; 3])
    by (cbn; lia).
  split; [exact Hrow|]. split; [exact Hpos|]. split; [exact Hwithin|].
  destruct (deductAll_balances Sample.shopId [2; 0; 3] (Sample.db 5) (Sample.tenant 5) Hrow)
    as (results & Hrun & _ & Hbal & _ & Hnonneg).
  exists results. split; [exact Hrun|]. split; [exact Hbal|].
  exact (proj1 (Hnonneg Hpos Hwithin)).
Defined.

(* ===================================================================== *)
(** * Orchestrator *)
(* ===================================================================== *)


(** C4. When [checkBalance] reports [hasCredits = false], the run rejects
    at once with the 402 error; the only boundary crossed is that balance
    check, so neither the generation adapter nor [deductCredit] is called,
    and the database is left as it was. *)
Theorem quota_exhausted_fails_fast
    (env : Env) (input : GenerateSchemaInput.t) (db : Db) (r : CheckBalanceResult) :
  let shopId := GenerateSchemaInput.shopId input in
  let run := generateProductSchema env input db in
  settled (checkBalance shopId db) = Fulfilled r ->
  hasCredits r = false ->
  settled run = Rejected PaymentRequired
  /\ String.prefix "402" (message PaymentRequired) = true
  /\ calls run = [Invoked (CheckBalance shopId); Returned (CheckBalance shopId) (ABalance r)]
  /\ (forall request, ~ In (Invoked (GenerateObject request)) (calls run))
  /\ (forall s amount, ~ In (Invoked (DeductCredit s amount)) (calls run))
  /\ after run = db.
Proof.
  intros shopId run Hcheck Hnone.
  destruct (checkBalance_total shopId db) as (r' & db1' & Hcb' & Hhas & _ & Hdb).
  destruct (generateProductSchema_cases env input db) as (r0 & db1 & Hcb & Hcases).
  fold shopId in Hcb. fold run in Hcases.
  rewrite Hcb in Hcb'. injection Hcb' as <- <-.
  rewrite Hcb in Hcheck. cbn in Hcheck. injection Hcheck as ->.
  assert (Hsame : db1 = db).
  { destruct (shops db !! shopId); [tauto|].
    destruct Hdb as [_ Hten]. rewrite Hten in Hhas. rewrite Hnone in Hhas. discriminate. }
  destruct Hcases as [(_ & Hrun) | [(Hyes & _) | (Hyes & _)]]; try congruence.
  rewrite Hrun. cbn [settled after calls]. repeat split; try assumption.
  - intros request Hin. in_trace Hin.
  - intros s amount Hin. in_trace Hin.
Qed.

Lemma quota_exhausted_fails_fast_witness :
  settled (checkBalance Sample.shopId (Sample.db 0))
  = Fulfilled {| hasCredits := false; balance := 0 |}
  /\ settled (generateProductSchema Sample.envOk Sample.input (Sample.db 0))
     = Rejected PaymentRequired
  /\ after (generateProductSchema Sample.envOk Sample.input (Sample.db 0)) = Sample.db 0.
Proof.
  assert (Hcheck : settled (checkBalance Sample.shopId (Sample.db 0))
                   = Fulfilled {| hasCredits := false; balance := 0 |})
    by (vm_compute; reflexivity).
  split; [exact Hcheck|].
  destruct (quota_exhausted_fails_fast Sample.envOk Sample.input (Sample.db 0) _
              Hcheck eq_refl) as (Hrun & _ & _ & _ & _ & Hdb).
  split; [exact Hrun | exact Hdb].
Defined.

Lemma validated_fulfilled (schema : z.Schema ProductSchema.t) (response : Upstream)
    (valid : ProductSchema.t) :
  validated schema response = Fulfilled valid ->
  exists object, response = Produced object /\ schema (Some object) = Some valid.
Proof.
  destruct response as [object|reason]; cbn; [|discriminate].
  destruct (schema (Some object)) as [v|] eqn:Hparse; [|discriminate].
  intros [= <-]. exists object. split; [reflexivity | exact Hparse].
Qed.

Lemma validated_rejected (schema : z.Schema ProductSchema.t) (response : Upstream)
    (reason : Error) :
  validated schema response = Rejected reason ->
  response = Failed reason
  \/ exists object,
       response = Produced object /\ schema (Some object) = None
       /\ reason = NoObjectGeneratedError.
Proof.
  destruct response as [object|reason']; cbn.
  - destruct (schema (Some object)) eqn:Hparse; [discriminate|].
    intros [= <-]. right. exists object. repeat split. exact Hparse.
  - intros [= <-]. left. reflexivity.
Qed.

(** C2. In every run the balance check is the first call and has returned
    before anything else happens; the generation adapter is invoked only
    with the completed, positive balance check behind it; and
    [deductCredit] is invoked only with, behind it, the completed balance
    check and a generation that has already returned an object the schema
    accepts: no call starts while another one is open. *)
Theorem generateProductSchema_call_order
    (env : Env) (input : GenerateSchemaInput.t) (db : Db) :
  let shopId := GenerateSchemaInput.shopId input in
  let tr := calls (generateProductSchema env input db) in
  (exists r rest,
     tr = Invoked (CheckBalance shopId) :: Returned (CheckBalance shopId) (ABalance r) :: rest)
  /\ (forall pre request post,
        tr = pre ++ Invoked (GenerateObject request) :: post ->
        exists r,
          pre = [Invoked (CheckBalance shopId); Returned (CheckBalance shopId) (ABalance r)]
          /\ hasCredits r = true)
  /\ (forall pre s amount post,
        tr = pre ++ Invoked (DeductCredit s amount) :: post ->
        exists r request object valid d,
          pre = [Invoked (CheckBalance shopId); Returned (CheckBalance shopId) (ABalance r);
                 Invoked (GenerateObject request);
                 Returned (GenerateObject request) (AObject valid)]
          /\ model_output env request = Produced object
          /\ ProductSchemaZod (Some object) = Some valid
          /\ s = shopId /\ amount = 1
          /\ post = [Returned (DeductCredit shopId 1) (ADeduct d)]).
Proof.
  intros shopId tr.
  destruct (generateProductSchema_cases env input db) as (r & db1 & _ & Hcases).
  fold shopId in Hcases. fold tr in Hcases.
  destruct Hcases as [(Hno & Hrun) | [(Hyes & reason & Hgen & Hrun)
                                     | (Hyes & valid & d & db2 & Hgen & _ & Hrun)]];
    apply (f_equal calls) in Hrun; cbn [calls] in Hrun; fold tr in Hrun; rewrite Hrun.
  - split; [eexists _, _; reflexivity|]. split.
    + intros pre request post H. split_trace H pre.
    + intros pre s amount post H. split_trace H pre.
  - split; [eexists _, _; reflexivity|]. split.
    + intros pre request post H. split_trace H pre.
      exists r. split; [reflexivity | exact Hyes].
    + intros pre s amount post H. split_trace H pre.
  - destruct (validated_fulfilled _ _ _ Hgen) as (object & Hout & Hvalid).
    split; [eexists _, _; reflexivity|]. split.
    + intros pre request post H. split_trace H pre.
      exists r. split; [reflexivity | exact Hyes].
    + intros pre s amount post H. split_trace H pre.
      injection H as <- <- <-.
      exists r, (requestOf input), object, valid, d. repeat split; assumption.
Qed.

Lemma generateProductSchema_call_order_witness :
  calls (generateProductSchema Sample.envOk Sample.input (Sample.db 5))
  = [Invoked (CheckBalance Sample.shopId);
     Returned (CheckBalance Sample.shopId) (ABalance {| hasCredits := true; balance := 5 |});
     Invoked (GenerateObject (requestOf Sample.input));
     Returned (GenerateObject (requestOf Sample.input)) (AObject Sample.parsedSchema)]
    ++ Invoked (DeductCredit Sample.shopId 1)
       :: [Returned (DeductCredit Sample.shopId 1)
             (ADeduct {| success := true; newBalance := 4 |})]
  /\ exists r request object valid,
       [Invoked (CheckBalance Sample.shopId);
        Returned (CheckBalance Sample.shopId) (ABalance {| hasCredits := true; balance := 5 |});
        Invoked (GenerateObject (requestOf Sample.input));
        Returned (GenerateObject (requestOf Sample.input)) (AObject Sample.parsedSchema)]
       = [Invoked (CheckBalance Sample.shopId);
          Returned (CheckBalance Sample.shopId) (ABalance r);
          Invoked (GenerateObject request);
          Returned (GenerateObject request) (AObject valid)]
       /\ model_output Sample.envOk request = Produced object
       /\ ProductSchemaZod (Some object) = Some valid.
Proof.
  assert (Htrace :
    calls (generateProductSchema Sample.envOk Sample.input (Sample.db 5))
    = [Invoked (CheckBalance Sample.shopId);
       Returned (CheckBalance Sample.shopId) (ABalance {| hasCredits := true; balance := 5 |});
       Invoked (GenerateObject (requestOf Sample.input));
       Returned (GenerateObject (requestOf Sample.input)) (AObject Sample.parsedSchema)]
      ++ Invoked (DeductCredit Sample.shopId 1)
         :: [Returned (DeductCredit Sample.shopId 1)
               (ADeduct {| success := true; newBalance := 4 |})])
    by (vm_compute; reflexivity).
  split; [exact Htrace|].
  destruct (generateProductSchema_call_order Sample.envOk Sample.input (Sample.db 5))
    as (_ & _ & Hdebit).
  destruct (Hdebit _ _ _ _ Htrace) as (r & request & object & valid & d & Hpre & Hout & Hvalid & _).
  exists r, request, object, valid. split; [exact Hpre|]. split; [exact Hout | exact Hvalid].
Defined.

Lemma getBalance_settled (shopId : string) (db : Db) (r : CheckBalanceResult) :
  settled (checkBalance shopId db) = Fulfilled r ->
  settled (getBalance shopId db) = Fulfilled (balance r).
Proof.
  intros Hcheck. unfold getBalance. rewrite (bind_fulfilled _ _ _ _ Hcheck). reflexivity.
Qed.

Lemma getBalance_stored (shopId : string) (db : Db) (n : Z) :
  storedBalance shopId db = Some n ->
  settled (getBalance shopId db) = Fulfilled n.
Proof.
  unfold storedBalance. destruct (shops db !! shopId) as [row|] eqn:Hrow; [|discriminate].
  intros [= <-].
  rewrite (getBalance_settled _ _ {| hasCredits := 0 <? credits row; balance := credits row |}).
  - reflexivity.
  - rewrite (checkBalance_existing _ _ _ Hrow). reflexivity.
Qed.

(** C3. When the generation adapter fails in a run (the model's call
    errors or its object does not pass the schema), the run rejects with
    that very failure and [deductCredit] is never called; with no other
    writer at work the database is exactly what the balance check left, so
    the balance the ledger reports after the attempt is the balance it
    reported before, and an existing tenant's stored balance is untouched. *)
Theorem generation_failure_leaves_ledger
    (env : Env) (input : GenerateSchemaInput.t) (db : Db)
    (request : GenerateObjectRequest) (reason : Error) :
  let shopId := GenerateSchemaInput.shopId input in
  let run := generateProductSchema env input db in
  In (Threw (GenerateObject request) reason) (calls run) ->
  quiet env ->
  settled run = Rejected reason
  /\ validated ProductSchemaZod (model_output env request) = Rejected reason
  /\ (forall s amount, ~ In (Invoked (DeductCredit s amount)) (calls run))
  /\ after run = after (checkBalance shopId db)
  /\ settled (getBalance shopId (after run)) = settled (getBalance shopId db)
  /\ match storedBalance shopId db with
     | Some n => after run = db
     | None => storedBalance shopId (after run) = Some DEFAULT_CREDITS
     end.
Proof.
  intros shopId run Hthrew Hquiet.
  destruct (checkBalance_total shopId db) as (r' & db1' & Hcb' & _ & Hstored & Hdb).
  destruct (generateProductSchema_cases env input db) as (r & db1 & Hcb & Hcases).
  fold shopId in Hcb. fold run in Hcases.
  rewrite Hcb in Hcb'. injection Hcb' as <- <-.
  destruct Hcases as [(_ & Hrun) | [(_ & reason' & Hgen & Hrun)
                                   | (_ & valid & d & db2 & _ & _ & Hrun)]];
    rewrite Hrun in Hthrew |- *; cbn [settled after calls] in *; in_trace Hthrew.
  injection Hthrew as <- <-.
  rewrite Hquiet, Hcb. cbn [after].
  split; [reflexivity|]. split; [exact Hgen|]. split.
  { intros s amount Hin. in_trace Hin. }
  split; [reflexivity|]. split.
  - rewrite (getBalance_stored _ _ _ Hstored).
    symmetry. apply getBalance_settled. rewrite Hcb. reflexivity.
  - unfold storedBalance in *. destruct (shops db !! shopId) as [row|]; cbn.
    + tauto.
    + destruct Hdb as [_ Hten]. rewrite <- Hten. exact Hstored.
Qed.

Lemma generation_failure_leaves_ledger_witness :
  In (Threw (GenerateObject (requestOf Sample.input)) NoObjectGeneratedError)
     (calls (generateProductSchema Sample.envInvalid Sample.input (Sample.db 5)))
  /\ quiet Sample.envInvalid
  /\ settled (generateProductSchema Sample.envInvalid Sample.input (Sample.db 5))
     = Rejected NoObjectGeneratedError
  /\ after (generateProductSchema Sample.envInvalid Sample.input (Sample.db 5)) = Sample.db 5.
Proof.
  assert (Hthrew :
    In (Threw (GenerateObject (requestOf Sample.input)) NoObjectGeneratedError)
       (calls (generateProductSchema Sample.envInvalid Sample.input (Sample.db 5))))
    by (vm_compute; tauto).
  assert (Hquiet : quiet Sample.envInvalid) by (intros db; reflexivity).
  split; [exact Hthrew|]. split; [exact Hquiet|].
  destruct (generation_failure_leaves_ledger Sample.envInvalid Sample.input (Sample.db 5)
              _ _ Hthrew Hquiet) as (Hrun & _ & _ & _ & _ & Hdb).
  split; [exact Hrun | exact Hdb].
Defined.

(** The same run with an error of the model's service: the failure is the
    error thrown upstream. *)
Example upstream_error_propagates :
  let run := generateProductSchema Sample.envUpstreamError Sample.input (Sample.db 5) in
  settled run = Rejected {| message := "OpenAI API error" |}
  /\ after run = Sample.db 5
  /\ calls run = [Invoked (CheckBalance Sample.shopId);
                  Returned (CheckBalance Sample.shopId)
                    (ABalance {| hasCredits := true; balance := 5 |});
                  Invoked (GenerateObject (requestOf Sample.input));
                  Threw (GenerateObject (requestOf Sample.input))
                    {| message := "OpenAI API error" |}].
Proof. vm_compute. repeat split. Qed.

(** C6, as the specification words it, fails: the tenant row disappears
    while the model runs, the debit reports [success = false], and the run
    still fulfils with the generated schema and [creditsRemaining = 0]. *)
Lemma debit_failure_counterexample :
  ~ debit_failure_surfaced Sample.envVanish Sample.input (Sample.db 5)
  /\ In (Returned (DeductCredit Sample.shopId 1)
           (ADeduct {| success := false; newBalance := 0 |}))
        (calls (generateProductSchema Sample.envVanish Sample.input (Sample.db 5)))
  /\ settled (generateProductSchema Sample.envVanish Sample.input (Sample.db 5))
     = Fulfilled {| schema := Sample.parsedSchema; creditsRemaining := 0 |}.
Proof.
  assert (Hin :
    In (Returned (DeductCredit Sample.shopId 1)
          (ADeduct {| success := false; newBalance := 0 |}))
       (calls (generateProductSchema Sample.envVanish Sample.input (Sample.db 5))))
    by (vm_compute; tauto).
  assert (Hrun :
    settled (generateProductSchema Sample.envVanish Sample.input (Sample.db 5))
    = Fulfilled {| schema := Sample.parsedSchema; creditsRemaining := 0 |})
    by (vm_compute; reflexivity).
  split; [|split; assumption].
  intros Hclaim. destruct (Hclaim _ Hin eq_refl) as (reason & Hrejected).
  rewrite Hrun in Hrejected. discriminate Hrejected.
Qed.

(** C6, amended.  When generation has succeeded and the debit reports
    [success = false], the orchestrator does not raise anything: the run
    fulfils with the generated schema and [creditsRemaining = 0], the
    balance carried by the failed debit. *)
Theorem debit_failure_is_swallowed
    (env : Env) (input : GenerateSchemaInput.t) (db : Db) (d : DeductCreditResult) :
  let shopId := GenerateSchemaInput.shopId input in
  let run := generateProductSchema env input db in
  In (Returned (DeductCredit shopId 1) (ADeduct d)) (calls run) ->
  success d = false ->
  exists valid,
    In (Returned (GenerateObject (requestOf input)) (AObject valid)) (calls run)
    /\ settled run = Fulfilled {| schema := valid; creditsRemaining := 0 |}
    /\ d = {| success := false; newBalance := 0 |}.
Proof.
  intros shopId run Hin Hfail.
  destruct (generateProductSchema_cases env input db) as (r & db1 & _ & Hcases).
  fold shopId in Hcases. fold run in Hcases.
  destruct Hcases as [(_ & Hrun) | [(_ & reason' & _ & Hrun)
                                   | (_ & valid & d' & db2 & _ & Hdebit & Hrun)]];
    rewrite Hrun in Hin |- *; cbn [settled after calls] in *; in_trace Hin.
  injection Hin as <-.
  destruct (deductCredit_total shopId 1 (meanwhile env db1)) as (d0 & db0 & Hd0 & Hkind).
  rewrite Hd0 in Hdebit. injection Hdebit as <- <-.
  destruct (shops (meanwhile env db1) !! shopId).
  - subst d0. discriminate Hfail.
  - destruct Hkind as [-> _]. exists valid. cbn. repeat split. tauto.
Qed.

Lemma debit_failure_is_swallowed_witness :
  In (Returned (DeductCredit Sample.shopId 1)
        (ADeduct {| success := false; newBalance := 0 |}))
     (calls (generateProductSchema Sample.envVanish Sample.input (Sample.db 5)))
  /\ exists valid,
       settled (generateProductSchema Sample.envVanish Sample.input (Sample.db 5))
       = Fulfilled {| schema := valid; creditsRemaining := 0 |}.
Proof.
  assert (Hin :
    In (Returned (DeductCredit Sample.shopId 1)
          (ADeduct {| success := false; newBalance := 0 |}))
       (calls (generateProductSchema Sample.envVanish Sample.input (Sample.db 5))))
    by (vm_compute; tauto).
  split; [exact Hin|].
  destruct (debit_failure_is_swallowed Sample.envVanish Sample.input (Sample.db 5) _
              Hin eq_refl) as (valid & _ & Hrun & _).
  exists valid. exact Hrun.
Defined.

(** C5, counterexample.  The product has been scanned, its stored hash
    equals the hash of its current fields and an artifact is cached; the
    orchestrator consults none of it: it checks the balance, calls the
    model, debits a credit and returns the fresh object. *)
Lemma cached_product_is_regenerated :
  let db := Sample.scannedDb 5 in
  let run := generateProductSchema Sample.envOk Sample.input db in
  (exists record,
     productStates db !! "gid://shopify/Product/1"%string = Some record
     /\ contentHash record = Hasher.generateProductHash (fingerprinted Sample.product)
     /\ schemaBlob record = Some Sample.cachedBlob)
  /\ calls run
     = [Invoked (CheckBalance Sample.shopId);
        Returned (CheckBalance Sample.shopId) (ABalance {| hasCredits := true; balance := 5 |});
        Invoked (GenerateObject (requestOf Sample.input));
        Returned (GenerateObject (requestOf Sample.input)) (AObject Sample.parsedSchema);
        Invoked (DeductCredit Sample.shopId 1);
        Returned (DeductCredit Sample.shopId 1)
          (ADeduct {| success := true; newBalance := 4 |})]
  /\ settled run = Fulfilled {| schema := Sample.parsedSchema; creditsRemaining := 4 |}
  /\ storedBalance Sample.shopId (after run) = Some 4.
Proof.
  split.
  - eexists. split; [vm_compute; reflexivity|]. split; reflexivity.
  - vm_compute. repeat split.
Qed.

(** The orchestrator does not read the [ProductState] table: whatever it
    holds, the outcome, the calls and the ledger are the same. *)
Lemma generateProductSchema_ignores_productStates
    (env : Env) (input : GenerateSchemaInput.t) (db : Db)
    (scanned : gmap string ProductState) :
  quiet env ->
  let run := generateProductSchema env input db in
  let run' := generateProductSchema env input
                {| shops := shops db; productStates := scanned |} in
  settled run' = settled run
  /\ calls run' = calls run
  /\ shops (after run') = shops (after run).
Proof.
  intros Hquiet run run'. subst run run'.
  set (db' := {| shops := shops db; productStates := scanned |}).
  set (shopId := GenerateSchemaInput.shopId input).
  assert (Hdebit : forall d1 d2 : Db,
            shops d1 = shops d2 ->
            settled (deductCredit shopId 1 d1) = settled (deductCredit shopId 1 d2)
            /\ calls (deductCredit shopId 1 d1) = calls (deductCredit shopId 1 d2)
            /\ shops (after (deductCredit shopId 1 d1))
               = shops (after (deductCredit shopId 1 d2))).
  { intros d1 d2 Hshops.
    destruct (shops d2 !! shopId) as [row|] eqn:Hrow.
    - rewrite (deductCredit_existing _ _ d2 row Hrow).
      rewrite (deductCredit_existing _ _ d1 row) by (rewrite Hshops; exact Hrow).
      cbn. rewrite Hshops. repeat split.
    - rewrite (deductCredit_absent _ _ d2 Hrow).
      rewrite (deductCredit_absent _ _ d1) by (rewrite Hshops; exact Hrow).
      cbn. repeat split. exact Hshops. }
  assert (Hcheck : exists r d1 d2 tr,
            checkBalance shopId db' = {| settled := Fulfilled r; after := d1; calls := tr |}
            /\ checkBalance shopId db = {| settled := Fulfilled r; after := d2; calls := tr |}
            /\ shops d1 = shops d2).
  { destruct (shops db !! shopId) as [row|] eqn:Hrow.
    - rewrite (checkBalance_existing _ db row Hrow), (checkBalance_existing _ db' row Hrow).
      eexists _, _, _, _. repeat split.
    - rewrite (checkBalance_absent _ db Hrow), (checkBalance_absent _ db' Hrow).
      eexists _, _, _, _. repeat split. }
  destruct Hcheck as (r & d1 & d2 & tr & Hcb' & Hcb & Hshops).
  rewrite !generateProductSchema_unfold. fold shopId. cbv zeta.
  rewrite Hcb', Hcb. cbn [settled after calls].
  destruct (negb (hasCredits r)); [repeat split; exact Hshops|].
  unfold generateObject, traced. cbn [settled after calls]. rewrite !Hquiet.
  destruct (validated ProductSchemaZod (model_output env (requestOf input)));
    [|repeat split; exact Hshops].
  destruct (Hdebit d1 d2 Hshops) as (Hs & Hc & Ha).
  rewrite Hs, Hc. destruct (settled (deductCredit shopId 1 d2)); repeat split; exact Ha.
Qed.

Lemma generateProductSchema_keeps_productStates
    (env : Env) (input : GenerateSchemaInput.t) (db : Db) :
  quiet env ->
  productStates (after (generateProductSchema env input db)) = productStates db.
Proof.
  intros Hquiet.
  set (shopId := GenerateSchemaInput.shopId input).
  assert (Hdebit : forall d : Db,
            productStates (after (deductCredit shopId 1 d)) = productStates d).
  { intros d. destruct (shops d !! shopId) as [row|] eqn:Hrow.
    - rewrite (deductCredit_existing _ _ d row Hrow). reflexivity.
    - rewrite (deductCredit_absent _ _ d Hrow). reflexivity. }
  destruct (generateProductSchema_cases env input db)
    as (r & db1 & Hcb & Hrun). fold shopId in Hcb, Hrun.
  assert (Hcheck : productStates db1 = productStates db).
  { destruct (shops db !! shopId) as [row|] eqn:Hrow.
    - rewrite (checkBalance_existing _ db row Hrow) in Hcb. injection Hcb as _ <-. reflexivity.
    - rewrite (checkBalance_absent _ db Hrow) in Hcb. injection Hcb as _ <-. reflexivity. }
  destruct Hrun as [(_ & ->) | [(_ & reason & _ & ->) | (_ & valid & d & db2 & _ & Hd & ->)]];
    cbn [after].
  - exact Hcheck.
  - rewrite Hquiet. exact Hcheck.
  - rewrite Hquiet in Hd. rewrite <- Hcheck, <- (Hdebit db1), Hd. reflexivity.
Qed.

(** C5, as amended.  [generateProductSchema] has no cache gate.  With no
    concurrent writer it neither reads nor writes the [ProductState]
    table: put any records in place of those of [db], one whose stored
    hash equals the product's fresh fingerprint included, and the outcome,
    the calls and the ledger are the same as on [db]; the records are left
    as they were given; and the run always begins with a call of the
    ledger, the balance check. *)
Theorem generateProductSchema_has_no_cache_gate
    (env : Env) (input : GenerateSchemaInput.t) (db : Db)
    (scanned : gmap string ProductState) :
  quiet env ->
  let run := generateProductSchema env input db in
  let run' := generateProductSchema env input
                {| shops := shops db; productStates := scanned |} in
  settled run' = settled run
  /\ calls run' = calls run
  /\ shops (after run') = shops (after run)
  /\ productStates (after run') = scanned
  /\ exists rest,
       calls run' = Invoked (CheckBalance (GenerateSchemaInput.shopId input)) :: rest.
Proof.
  intros Hquiet run run'.
  destruct (generateProductSchema_ignores_productStates env input db scanned Hquiet)
    as (Hsettled & Hcalls & Hshops).
  fold run run' in Hsettled, Hcalls, Hshops.
  split; [exact Hsettled|]. split; [exact Hcalls|]. split; [exact Hshops|].
  split.
  - subst run'. rewrite (generateProductSchema_keeps_productStates _ _ _ Hquiet). reflexivity.
  - destruct (generateProductSchema_cases env input
                {| shops := shops db; productStates := scanned |})
      as (r & db1 & _ & Hrun). fold run' in Hrun.
    destruct Hrun as [(_ & ->) | [(_ & reason & _ & ->) | (_ & valid & d & db2 & _ & _ & ->)]];
      eexists; reflexivity.
Qed.

Lemma generateProductSchema_has_no_cache_gate_witness :
  let run := generateProductSchema Sample.envOk Sample.input (Sample.db 5) in
  let run' := generateProductSchema Sample.envOk Sample.input (Sample.scannedDb 5) in
  settled run' = settled run
  /\ calls run' = calls run
  /\ shops (after run') = shops (after run)
  /\ productStates (after run') = productStates (Sample.scannedDb 5)
  /\ exists rest, calls run' = Invoked (CheckBalance Sample.shopId) :: rest.
Proof.
  exact (generateProductSchema_has_no_cache_gate Sample.envOk Sample.input (Sample.db 5)
           (productStates (Sample.scannedDb 5)) (fun db => eq_refl)).
Defined.

(* ===================================================================== *)
(** * Fingerprint *)
(* ===================================================================== *)

Example sha256_abc :
  sha256_hex "abc" = "ba7816bf8f01cfea414140de5dae2223b00361a396177a9cb410ff61f20015ad"%string.
Proof. vm_compute. reflexivity. Qed.

Example sha256_empty :
  sha256_hex EmptyString
  = "e3b0c44298fc1c149afbf4c8996fb92427ae41e4649b934ca495991b7852b855"%string.
Proof. vm_compute. reflexivity. Qed.

Example sha256_two_blocks :
  sha256_hex "aaaaaaaaaaaaaaaaaaaaaaaaaaaaaaaaaaaaaaaaaaaaaaaaaaaaaaaa"
  = "b35439a4ac6f0948b6d6f9e3c6af0f5f590ce20f1bde7090ef7970686ec6738a"%string.
Proof. vm_compute. reflexivity. Qed.

(** The product of the test suite, against the digest of its canonical
    JSON text computed outside. *)
Example sampleProduct_hash :
  Hasher.generateProductHash Hasher.sampleProduct
  = "4be74a46681b3593f7689ee1d4686f7ff00d27cf80b8cc4b1936dcbcd8012ef6"%string.
Proof. vm_compute. reflexivity. Qed.

Lemma append_assoc (s1 s2 s3 : string) : (s1 +:+ s2) +:+ s3 = s1 +:+ (s2 +:+ s3).
Proof.
  induction s1 as [|c s1 IH]; [reflexivity|].
  change (String c ((s1 +:+ s2) +:+ s3) = String c (s1 +:+ (s2 +:+ s3))).
  rewrite IH. reflexivity.
Qed.

Lemma length_string_of_list (l : list ascii) :
  String.length (string_of_list_ascii l) = length l.
Proof. induction l as [|c l IH]; cbn; [reflexivity | rewrite IH; reflexivity]. Qed.

Lemma hexdigit_lower (n : Z) : 0 <= n < 16 -> is_lower_hex (hexdigit n) = true.
Proof.
  intros Hn. rewrite <- (Z2Nat.id n) by lia.
  assert (Hm : (Z.to_nat n < 16)%nat) by lia.
  set (m := Z.to_nat n) in *. clearbody m.
  do 16 (destruct m as [|m]; [reflexivity|]). lia.
Qed.

Lemma nibble_range (w k : Z) : 0 <= Z.land (Z.shiftr w k) 15 < 16.
Proof.
  change 15 with (Z.ones 4). rewrite Z.land_ones by lia.
  apply Z.mod_pos_bound. lia.
Qed.

Lemma hex_word_lower (w : Z) :
  Forall (fun c => is_lower_hex c = true) (Sha256.hex_word w).
Proof.
  unfold Sha256.hex_word. cbn [map].
  repeat (constructor; [apply hexdigit_lower, nibble_range|]). constructor.
Qed.

Lemma hex_shape (s : Sha256.state) :
  String.length (Sha256.hex s) = 64%nat
  /\ Forall (fun c => is_lower_hex c = true) (list_ascii_of_string (Sha256.hex s)).
Proof.
  unfold Sha256.hex. split.
  - rewrite length_string_of_list. reflexivity.
  - rewrite list_ascii_of_string_of_list_ascii.
    repeat (apply Forall_app; split; [apply hex_word_lower|]). apply hex_word_lower.
Qed.

Lemma normalized_canonical (product : Hasher.Product) :
  Hasher.normalized product
  = Hasher.canonical (Hasher.description product) (Hasher.title product)
      (Hasher.vendor product).
Proof.
  unfold Hasher.normalized, Hasher.canonical. cbn [JSON.stringify].
  repeat rewrite append_assoc. reflexivity.
Qed.

(** Empty fields are hashed like any other value. *)
Example empty_product_hash :
  let product := {| Hasher.title := EmptyString; Hasher.description := EmptyString;
                    Hasher.vendor := EmptyString; Hasher.extra := [] |} in
  Hasher.normalized product
  = String "{" (JSON.quote "description" +:+ ":" +:+ String DQUOTE (String DQUOTE ","
      +:+ JSON.quote "title" +:+ ":" +:+ String DQUOTE (String DQUOTE ","
      +:+ JSON.quote "vendor" +:+ ":" +:+ String DQUOTE (String DQUOTE "}"))))
  /\ Hasher.generateProductHash product
     = "dde950fcc765f58d3df3aa20b7e746613d8db74b72c5707a3c1af876371ad6f5"%string.
Proof. vm_compute. split; reflexivity. Qed.

(** Quotes, backslashes, control characters and a two-byte character in
    a field, against the digest of the same JSON text computed outside. *)
Example escaped_title_hash :
  let title := string_of_list_ascii
                 (map (fun n => ascii_of_N n)
                    [72; 101; 32; 115; 97; 105; 100; 32; 34; 104; 105; 34; 92; 32;
                     10; 9; 1; 31; 127; 195; 169]%N) in
  Hasher.generateProductHash
    {| Hasher.title := title; Hasher.description := EmptyString;
       Hasher.vendor := "x"; Hasher.extra := [] |}
  = "5002568b2dc068a005c6e8cc27b6cddeeed7e34924c12d9934f368cb222dc5b7"%string.
Proof. vm_compute. reflexivity. Qed.

(** Quoting can be read back character by character, so the canonical text
    determines the three fields: two products with the same canonical text
    have the same title, description and vendor. *)
Lemma read_char_quote_char (c : ascii) (rest : string) :
  JSON.read_char (JSON.quote_char c +:+ rest) = Some (c, rest).
Proof.
  destruct c as [b0 b1 b2 b3 b4 b5 b6 b7].
  destruct b0, b1, b2, b3, b4, b5, b6, b7; reflexivity.
Qed.

Lemma quote_chars_inj (s s' rest rest' : string) :
  JSON.quote_chars s +:+ String DQUOTE rest = JSON.quote_chars s' +:+ String DQUOTE rest' ->
  s = s' /\ rest = rest'.
Proof.
  revert s'. induction s as [|c s IH]; intros [|c' s'] Heq.
  - injection Heq as ->. split; reflexivity.
  - apply (f_equal JSON.read_char) in Heq. cbn [JSON.quote_chars] in Heq.
    rewrite append_assoc, read_char_quote_char in Heq. discriminate Heq.
  - apply (f_equal JSON.read_char) in Heq. cbn [JSON.quote_chars] in Heq.
    rewrite append_assoc, read_char_quote_char in Heq. discriminate Heq.
  - apply (f_equal JSON.read_char) in Heq. cbn [JSON.quote_chars] in Heq.
    rewrite !append_assoc, !read_char_quote_char in Heq.
    injection Heq as -> Htail. destruct (IH _ Htail) as [-> ->]. split; reflexivity.
Qed.

Lemma append_inv_head (p x y : string) : p +:+ x = p +:+ y -> x = y.
Proof.
  induction p as [|c p IH]; intros Heq; [exact Heq|].
  apply IH. change (String c (p +:+ x) = String c (p +:+ y)) in Heq.
  injection Heq as Heq. exact Heq.
Qed.

Lemma quote_inj (s s' rest rest' : string) :
  JSON.quote s +:+ rest = JSON.quote s' +:+ rest' -> s = s' /\ rest = rest'.
Proof.
  unfold JSON.quote. intros Heq.
  change (String DQUOTE ((JSON.quote_chars s +:+ String DQUOTE EmptyString) +:+ rest)
          = String DQUOTE ((JSON.quote_chars s' +:+ String DQUOTE EmptyString) +:+ rest'))
    in Heq.
  injection Heq as Heq. rewrite !append_assoc in Heq.
  exact (quote_chars_inj _ _ _ _ Heq).
Qed.

Lemma canonical_inj (d t v d' t' v' : string) :
  Hasher.canonical d t v = Hasher.canonical d' t' v' ->
  d = d' /\ t = t' /\ v = v'.
Proof.
  unfold Hasher.canonical. intros Heq.
  do 3 apply append_inv_head in Heq. apply quote_inj in Heq as [-> Heq].
  do 3 apply append_inv_head in Heq. apply quote_inj in Heq as [-> Heq].
  do 3 apply append_inv_head in Heq. apply quote_inj in Heq as [-> _].
  repeat split.
Qed.

Lemma normalized_inj (p q : Hasher.Product) :
  Hasher.normalized p = Hasher.normalized q ->
  Hasher.title p = Hasher.title q
  /\ Hasher.description p = Hasher.description q
  /\ Hasher.vendor p = Hasher.vendor q.
Proof.
  rewrite !normalized_canonical. intros Heq.
  apply canonical_inj in Heq as (Hd & Ht & Hv). repeat split; assumption.
Qed.

(** The changes of the test suite do change the digest. *)
Example title_change_changes_hash :
  Hasher.generateProductHash
    {| Hasher.title := "Handcrafted Leather wallet";
       Hasher.description := Hasher.description Hasher.sampleProduct;
       Hasher.vendor := Hasher.vendor Hasher.sampleProduct;
       Hasher.extra := [] |}
  <> Hasher.generateProductHash Hasher.sampleProduct.
Proof. vm_compute. discriminate. Qed.

(** Reading the canonical text back: [Canonical.read] undoes what
    [JSON.stringify] wrote, character by character. *)
Lemma read_text_quote_char (c : ascii) (tail : string) :
  Canonical.read_text (JSON.quote_char c +:+ tail)
  = Canonical.push (Some c) (Canonical.read_text tail).
Proof.
  destruct c as [b0 b1 b2 b3 b4 b5 b6 b7].
  destruct b0, b1, b2, b3, b4, b5, b6, b7; reflexivity.
Qed.

Lemma read_text_quote_chars (s rest : string) :
  Canonical.read_text (JSON.quote_chars s +:+ String DQUOTE rest) = Some (s, rest).
Proof.
  induction s as [|c s IH]; [reflexivity|].
  cbn [JSON.quote_chars]. rewrite append_assoc, read_text_quote_char, IH. reflexivity.
Qed.

Lemma read_string_quote (s rest : string) :
  Canonical.read_string (JSON.quote s +:+ rest) = Some (s, rest).
Proof.
  unfold JSON.quote.
  change (Canonical.read_text ((JSON.quote_chars s +:+ String DQUOTE EmptyString) +:+ rest)
          = Some (s, rest)).
  rewrite append_assoc. apply read_text_quote_chars.
Qed.

Lemma plain_quote_char (c : ascii) :
  Canonical.plain_char c = true -> JSON.quote_char c = String c EmptyString.
Proof.
  destruct c as [b0 b1 b2 b3 b4 b5 b6 b7].
  destruct b0, b1, b2, b3, b4, b5, b6, b7; intros Hplain;
    first [reflexivity | discriminate Hplain].
Qed.

Lemma plain_quote (s : string) :
  Canonical.plain s = true -> JSON.quote s = Canonical.literal s.
Proof.
  unfold JSON.quote, Canonical.literal, Canonical.plain. intros Hplain. f_equal.
  induction s as [|c s IH]; [reflexivity|].
  cbn [list_ascii_of_string forallb] in Hplain.
  apply andb_prop in Hplain as [Hc Hs].
  cbn [JSON.quote_chars]. rewrite (plain_quote_char c Hc).
  change (String c (JSON.quote_chars s +:+ String DQUOTE EmptyString)
          = String c (s +:+ String DQUOTE EmptyString)).
  rewrite (IH Hs). reflexivity.
Qed.

Lemma expect_append (expected rest : string) :
  Canonical.expect expected (expected +:+ rest) = Some rest.
Proof.
  induction expected as [|c expected IH]; [reflexivity|].
  change (Canonical.expect (String c expected) (String c (expected +:+ rest)) = Some rest).
  cbn [Canonical.expect]. rewrite Ascii.eqb_refl. exact IH.
Qed.

Lemma read_member_quote (key value rest : string) :
  Canonical.plain key = true ->
  Canonical.read_member key (JSON.quote key +:+ ":" +:+ JSON.quote value +:+ rest)
  = Some (value, rest).
Proof.
  intros Hkey. unfold Canonical.read_member.
  rewrite (plain_quote key Hkey), <- append_assoc, expect_append.
  apply read_string_quote.
Qed.

Lemma read_canonical (d t v : string) :
  Canonical.read (Hasher.canonical d t v) = Some (d, t, v).
Proof.
  unfold Canonical.read, Hasher.canonical.
  rewrite (expect_append "{"). cbn [mbind option_bind].
  rewrite read_member_quote by reflexivity. cbn [mbind option_bind].
  rewrite (expect_append ","). cbn [mbind option_bind].
  rewrite read_member_quote by reflexivity. cbn [mbind option_bind].
  rewrite (expect_append ","). cbn [mbind option_bind].
  rewrite read_member_quote by reflexivity. cbn [mbind option_bind].
  reflexivity.
Qed.

(** C7. [generateProductHash] is the SHA-256 digest, printed as 64
    lowercase hexadecimal characters, of the canonical text that holds
    exactly the three fields in the order description, title, vendor; it
    is a function of those three values alone, so equal values give the
    equal digest at every call.  For every product: the text that is
    hashed is the canonical one; read back as JSON it gives the three
    values, whatever characters they hold; when no value needs an escape
    it is the three values between quotes after their keys; the digest has
    64 characters, all lowercase hexadecimal; other properties of the
    object do not enter.  The digest is SHA-256: on the messages of the
    standard's examples (abc, the empty message, the 56-byte message), on
    messages of 55 and 64 bytes, where the padding changes shape, and on
    three products (the one of the test suite, one with three empty
    strings, one whose title needs every escape) the result is the digest
    that other SHA-256 implementations give for the same bytes. *)
Theorem generateProductHash_canonical_sha256 :
  (forall product : Hasher.Product,
     let d := Hasher.description product in
     let t := Hasher.title product in
     let v := Hasher.vendor product in
     let digest := Hasher.generateProductHash product in
     digest = sha256_hex (Hasher.canonical d t v)
     /\ Hasher.normalized product = Hasher.canonical d t v
     /\ Canonical.read (Hasher.normalized product) = Some (d, t, v)
     /\ (Canonical.plain d = true -> Canonical.plain t = true -> Canonical.plain v = true ->
         Hasher.normalized product
         = "{" +:+ Canonical.literal "description" +:+ ":" +:+ Canonical.literal d +:+ ","
               +:+ Canonical.literal "title" +:+ ":" +:+ Canonical.literal t +:+ ","
               +:+ Canonical.literal "vendor" +:+ ":" +:+ Canonical.literal v +:+ "}")
     /\ String.length digest = 64%nat
     /\ Forall (fun c => is_lower_hex c = true) (list_ascii_of_string digest)
     /\ (forall other,
           Hasher.generateProductHash
             {| Hasher.title := t; Hasher.description := d; Hasher.vendor := v;
                Hasher.extra := other |} = digest))
  /\ sha256_hex "abc"
     = "ba7816bf8f01cfea414140de5dae2223b00361a396177a9cb410ff61f20015ad"%string
  /\ sha256_hex EmptyString
     = "e3b0c44298fc1c149afbf4c8996fb92427ae41e4649b934ca495991b7852b855"%string
  /\ sha256_hex "abcdbcdecdefdefgefghfghighijhijkijkljklmklmnlmnomnopnopq"
     = "248d6a61d20638b8e5c026930c3e6039a33ce45964ff2167f6ecedd419db06c1"%string
  /\ sha256_hex "aaaaaaaaaaaaaaaaaaaaaaaaaaaaaaaaaaaaaaaaaaaaaaaaaaaaaaa"
     = "9f4390f8d30c2dd92ec9f095b65e2b9ae9b0a925a5258e241c9f1e910f734318"%string
  /\ sha256_hex "aaaaaaaaaaaaaaaaaaaaaaaaaaaaaaaaaaaaaaaaaaaaaaaaaaaaaaaaaaaaaaaa"
     = "ffe054fe7ae0cb6dc65c3af9b61d5209f439851db43d0ba5997337df154668eb"%string
  /\ Hasher.generateProductHash Hasher.sampleProduct
     = "4be74a46681b3593f7689ee1d4686f7ff00d27cf80b8cc4b1936dcbcd8012ef6"%string
  /\ Hasher.generateProductHash
       {| Hasher.title := EmptyString; Hasher.description := EmptyString;
          Hasher.vendor := EmptyString; Hasher.extra := [] |}
     = "dde950fcc765f58d3df3aa20b7e746613d8db74b72c5707a3c1af876371ad6f5"%string
  /\ Hasher.generateProductHash
       {| Hasher.title := Canonical.escapedTitle; Hasher.description := EmptyString;
          Hasher.vendor := "x"; Hasher.extra := [] |}
     = "5002568b2dc068a005c6e8cc27b6cddeeed7e34924c12d9934f368cb222dc5b7"%string.
Proof.
  split.
  - intros product d t v digest. subst d t v digest.
    unfold Hasher.generateProductHash. rewrite !normalized_canonical.
    split; [reflexivity|]. split; [reflexivity|].
    split; [apply read_canonical|].
    split.
    + intros Hd Ht Hv. unfold Hasher.canonical.
      rewrite (plain_quote _ Hd), (plain_quote _ Ht), (plain_quote _ Hv). reflexivity.
    + unfold sha256_hex. split; [apply hex_shape|]. split; [apply hex_shape|].
      intros other. rewrite normalized_canonical. reflexivity.
  - split; [exact sha256_abc|]. split; [exact sha256_empty|].
    split; [vm_compute; reflexivity|]. split; [vm_compute; reflexivity|].
    split; [vm_compute; reflexivity|]. split; [exact sampleProduct_hash|].
    split; [vm_compute; reflexivity|]. vm_compute. reflexivity.
Qed.

(* ===================================================================== *)
(** * Schema validation and the scenario of the specification *)
(* ===================================================================== *)

Lemma literal_accepts (value : string) (input : option json) :
  z.literal value input = Some tt -> input = Some (JString value).
Proof.
  destruct input as [[| | |s| |]|]; cbn; try discriminate.
  destruct (String.eqb s value) eqn:Heq; [|discriminate].
  apply String.eqb_eq in Heq. subst s. reflexivity.
Qed.

Lemma string_accepts (input : option json) (s : string) :
  z.string input = Some s -> input = Some (JString s).
Proof.
  destruct input as [[| | |s'| |]|]; cbn; try discriminate.
  intros [= ->]. reflexivity.
Qed.

(** An object the schema accepts has the required fields, with the
    literal values the schema fixes. *)
Lemma ProductSchemaZod_accepts (object : json) (valid : ProductSchema.t) :
  ProductSchemaZod (Some object) = Some valid ->
  exists props brandProps,
    object = JObject props
    /\ JSON.get "@context" props = Some (JString "https://schema.org")
    /\ JSON.get "@type" props = Some (JString "Product")
    /\ JSON.get "name" props = Some (JString (ProductSchema.name valid))
    /\ JSON.get "description" props = Some (JString (ProductSchema.description valid))
    /\ JSON.get "brand" props = Some (JObject brandProps)
    /\ JSON.get "@type" brandProps = Some (JString "Brand")
    /\ JSON.get "name" brandProps
       = Some (JString (Brand.name (ProductSchema.brand valid))).
Proof.
  destruct object as [| | | | |props]; cbn; try discriminate.
  intros Hparse.
  destruct (z.literal "https://schema.org" (JSON.get "@context" props)) as [[]|] eqn:Hcontext;
    cbn in Hparse; [|discriminate].
  destruct (z.literal "Product" (JSON.get "@type" props)) as [[]|] eqn:Htype;
    cbn in Hparse; [|discriminate].
  destruct (z.string (JSON.get "name" props)) as [name|] eqn:Hname;
    cbn in Hparse; [|discriminate].
  destruct (z.string (JSON.get "description" props)) as [description|] eqn:Hdescription;
    cbn in Hparse; [|discriminate].
  destruct (BrandZod (JSON.get "brand" props)) as [brand|] eqn:Hbrand;
    cbn in Hparse; [|discriminate].
  destruct (z.optional z.string (JSON.get "sku" props)); cbn in Hparse; [|discriminate].
  destruct (z.optional z.string (JSON.get "category" props)); cbn in Hparse; [|discriminate].
  destruct (z.optional z.string (JSON.get "material" props)); cbn in Hparse; [|discriminate].
  destruct (z.optional z.string (JSON.get "color" props)); cbn in Hparse; [|discriminate].
  destruct (z.optional OfferZod (JSON.get "offers" props)); cbn in Hparse; [|discriminate].
  injection Hparse as <-. cbn.
  unfold BrandZod, z.object in Hbrand.
  destruct (JSON.get "brand" props) as [[| | | | |brandProps]|] eqn:Hget; try discriminate.
  destruct (z.literal "Brand" (JSON.get "@type" brandProps)) as [[]|] eqn:Hbtype;
    cbn in Hbrand; [|discriminate].
  destruct (z.string (JSON.get "name" brandProps)) as [bname|] eqn:Hbname;
    cbn in Hbrand; [|discriminate].
  injection Hbrand as <-. cbn.
  exists props, brandProps.
  repeat split;
    auto using literal_accepts, string_accepts.
Qed.

Example mockSchema_is_valid :
  ProductSchemaZod (Some Sample.mockSchema) = Some Sample.parsedSchema
  /\ ProductSchemaZod (Some Sample.invalidSchema) = None.
Proof. split; reflexivity. Qed.

(** The scenario of the specification on one credit: the first product is
    generated and leaves the tenant at 0; a first scan of another product
    then fails with the 402 error and the balance stays at 0. *)
Example one_credit_scenario :
  let first := generateProductSchema Sample.envOk Sample.input (Sample.db 1) in
  let second := generateProductSchema Sample.envOk Sample.otherInput (after first) in
  settled first = Fulfilled {| schema := Sample.parsedSchema; creditsRemaining := 0 |}
  /\ storedBalance Sample.shopId (after first) = Some 0
  /\ settled second = Rejected PaymentRequired
  /\ storedBalance Sample.shopId (after second) = Some 0.
Proof. vm_compute. repeat split. Qed.

(* ===================================================================== *)
(** * More on the credit ledger *)
(* ===================================================================== *)

Lemma addCredits_existing (shopId : string) (amount : Z) (db : Db) (row : Shop) :
  shops db !! shopId = Some row ->
  addCredits shopId amount db =
    let r := {| success := true; newBalance := credits row + amount |} in
    {| settled := Fulfilled r;
       after := with_shops db (<[shopId := set_credits row (credits row + amount)]> (shops db));
       calls := [Invoked (AddCredits shopId amount);
                 Returned (AddCredits shopId amount) (ADeduct r)] |}.
Proof.
  intros Hrow. unfold addCredits. unfold_async. rewrite Hrow. reflexivity.
Qed.

Lemma addCredits_absent (shopId : string) (amount : Z) (db : Db) :
  shops db !! shopId = None ->
  addCredits shopId amount db =
    let r := {| success := true; newBalance := 10 + amount |} in
    {| settled := Fulfilled r;
       after := with_shops db (<[shopId := set_credits default_shop (10 + amount)]> (shops db));
       calls := [Invoked (AddCredits shopId amount);
                 Returned (AddCredits shopId amount) (ADeduct r)] |}.
Proof.
  intros Hrow. unfold addCredits. unfold_async. rewrite Hrow. reflexivity.
Qed.

(** X1. A debit on a tenant that has no row reports [success = false] with
    [newBalance = 0] and writes nothing: no row is created, the database is
    the one it was given. *)
Theorem deductCredit_missing_tenant (shopId : string) (amount : Z) (db : Db) :
  shops db !! shopId = None ->
  settled (deductCredit shopId amount db)
  = Fulfilled {| success := false; newBalance := 0 |}
  /\ after (deductCredit shopId amount db) = db
  /\ storedBalance shopId (after (deductCredit shopId amount db)) = None.
Proof.
  intros Hrow. rewrite (deductCredit_absent _ _ _ Hrow). cbn.
  repeat split. unfold storedBalance. rewrite Hrow. reflexivity.
Qed.

Lemma deductCredit_missing_tenant_witness :
  shops Sample.emptyDb !! Sample.shopId = None
  /\ settled (deductCredit Sample.shopId 1 Sample.emptyDb)
     = Fulfilled {| success := false; newBalance := 0 |}
  /\ after (deductCredit Sample.shopId 1 Sample.emptyDb) = Sample.emptyDb.
Proof.
  assert (Hrow : shops Sample.emptyDb !! Sample.shopId = None) by reflexivity.
  split; [exact Hrow|].
  destruct (deductCredit_missing_tenant Sample.shopId 1 Sample.emptyDb Hrow) as (Hr & Hdb & _).
  split; [exact Hr | exact Hdb].
Defined.

(** X2. [addCredits] always reports [success = true]: on an existing
    tenant the new balance is the stored one plus the amount and only the
    balance of the row changes; on a missing tenant a row is created with
    10 plus the amount, not onboarded and without brand voice. *)
Theorem addCredits_tops_up_or_provisions (shopId : string) (amount : Z) (db : Db) :
  let run := addCredits shopId amount db in
  match shops db !! shopId with
  | Some row =>
      settled run = Fulfilled {| success := true; newBalance := credits row + amount |}
      /\ shops (after run) !! shopId
         = Some {| credits := credits row + amount;
                   brandVoice := brandVoice row;
                   isOnboarded := isOnboarded row |}
  | None =>
      settled run = Fulfilled {| success := true; newBalance := 10 + amount |}
      /\ shops (after run) !! shopId
         = Some {| credits := 10 + amount; brandVoice := None; isOnboarded := false |}
  end.
Proof.
  intros run. subst run. destruct (shops db !! shopId) as [row|] eqn:Hrow.
  - rewrite (addCredits_existing _ _ _ _ Hrow). cbn. split; [reflexivity|].
    apply lookup_insert_eq.
  - rewrite (addCredits_absent _ _ _ Hrow). cbn. split; [reflexivity|].
    apply lookup_insert_eq.
Qed.

(** X3. On an existing tenant a top-up followed by a debit of the same
    amount, or a debit followed by a top-up of the same amount, gives back
    the database they started from. *)
Theorem addCredits_deductCredit_cancel (shopId : string) (amount : Z) (db : Db) (row : Shop) :
  shops db !! shopId = Some row ->
  after (deductCredit shopId amount (after (addCredits shopId amount db))) = db
  /\ after (addCredits shopId amount (after (deductCredit shopId amount db))) = db.
Proof.
  intros Hrow. split.
  - rewrite (addCredits_existing _ _ _ _ Hrow). cbn [after].
    erewrite deductCredit_existing by (cbn; apply lookup_insert_eq).
    cbn. rewrite insert_insert_eq.
    replace (set_credits (set_credits row _) _) with row
      by (destruct row; unfold set_credits; cbn; f_equal; lia).
    rewrite (insert_id (shops db) shopId row Hrow). destruct db. reflexivity.
  - rewrite (deductCredit_existing _ _ _ _ Hrow). cbn [after].
    erewrite addCredits_existing by (cbn; apply lookup_insert_eq).
    cbn. rewrite insert_insert_eq.
    replace (set_credits (set_credits row _) _) with row
      by (destruct row; unfold set_credits; cbn; f_equal; lia).
    rewrite (insert_id (shops db) shopId row Hrow). destruct db. reflexivity.
Qed.

Lemma addCredits_deductCredit_cancel_witness :
  shops (Sample.db 5) !! Sample.shopId = Some (Sample.tenant 5)
  /\ after (deductCredit Sample.shopId 7
             (after (addCredits Sample.shopId 7 (Sample.db 5)))) = Sample.db 5.
Proof.
  assert (Hrow : shops (Sample.db 5) !! Sample.shopId = Some (Sample.tenant 5))
    by (vm_compute; reflexivity).
  split; [exact Hrow|].
  exact (proj1 (addCredits_deductCredit_cancel Sample.shopId 7 (Sample.db 5) _ Hrow)).
Defined.

(** X4. The three ledger operations write at most the row of the tenant
    they are called for: every other tenant's row and the whole
    [ProductState] table are what they were. *)
Theorem ledger_operations_touch_one_tenant
    (shopId other : string) (amount : Z) (db : Db) :
  other <> shopId ->
  (shops (after (checkBalance shopId db)) !! other = shops db !! other
   /\ productStates (after (checkBalance shopId db)) = productStates db)
  /\ (shops (after (deductCredit shopId amount db)) !! other = shops db !! other
      /\ productStates (after (deductCredit shopId amount db)) = productStates db)
  /\ (shops (after (addCredits shopId amount db)) !! other = shops db !! other
      /\ productStates (after (addCredits shopId amount db)) = productStates db).
Proof.
  intros Hother.
  destruct (shops db !! shopId) as [row|] eqn:Hrow.
  - rewrite (checkBalance_existing _ _ _ Hrow), (deductCredit_existing _ _ _ _ Hrow),
      (addCredits_existing _ _ _ _ Hrow).
    cbn. rewrite !lookup_insert_ne by congruence. repeat split.
  - rewrite (checkBalance_absent _ _ Hrow), (deductCredit_absent _ _ _ Hrow),
      (addCredits_absent _ _ _ Hrow).
    cbn. rewrite !lookup_insert_ne by congruence. repeat split.
Qed.

Lemma ledger_operations_touch_one_tenant_witness :
  "other-shop.myshopify.com"%string <> Sample.shopId
  /\ shops (after (deductCredit Sample.shopId 1 (Sample.db 5)))
       !! "other-shop.myshopify.com"%string
     = shops (Sample.db 5) !! "other-shop.myshopify.com"%string.
Proof.
  assert (Hother : "other-shop.myshopify.com"%string <> Sample.shopId) by discriminate.
  split; [exact Hother|].
  destruct (ledger_operations_touch_one_tenant Sample.shopId _ 1 (Sample.db 5) Hother)
    as (_ & (Hdebit & _) & _).
  exact Hdebit.
Defined.

(** X5. [getBalance] is a read only for a tenant that exists: it returns
    the stored balance and leaves the database alone.  For a tenant that
    does not exist it returns 10, not 0, and the call creates the row with
    the default balance. *)
Theorem getBalance_reads_or_provisions (shopId : string) (db : Db) :
  let run := getBalance shopId db in
  match shops db !! shopId with
  | Some row => settled run = Fulfilled (credits row) /\ after run = db
  | None =>
      settled run = Fulfilled 10
      /\ shops (after run) = <[shopId := default_shop]> (shops db)
      /\ storedBalance shopId (after run) = Some 10
  end.
Proof.
  intros run. subst run. unfold getBalance.
  destruct (shops db !! shopId) as [row|] eqn:Hrow.
  - rewrite (bind_fulfilled _ _ _ {| hasCredits := 0 <? credits row; balance := credits row |})
      by (rewrite (checkBalance_existing _ _ _ Hrow); reflexivity).
    rewrite (checkBalance_existing _ _ _ Hrow). split; reflexivity.
  - rewrite (bind_fulfilled _ _ _ {| hasCredits := true; balance := DEFAULT_CREDITS |})
      by (rewrite (checkBalance_absent _ _ Hrow); reflexivity).
    rewrite (checkBalance_absent _ _ Hrow). cbn. repeat split.
    unfold storedBalance. cbn. rewrite lookup_insert_eq. reflexivity.
Qed.

(** X6. Checking the balance twice is checking it once: the second check
    returns the same answer, records the same call and leaves the database
    the first check left, whether or not the first one created the row. *)
Theorem checkBalance_idempotent (shopId : string) (db : Db) :
  checkBalance shopId (after (checkBalance shopId db)) = checkBalance shopId db.
Proof.
  destruct (shops db !! shopId) as [row|] eqn:Hrow.
  - rewrite (checkBalance_existing _ _ _ Hrow). cbn [after].
    apply (checkBalance_existing _ _ _ Hrow).
  - rewrite (checkBalance_absent _ _ Hrow). cbn [after].
    erewrite checkBalance_existing by (cbn; apply lookup_insert_eq).
    reflexivity.
Qed.

(* ===================================================================== *)
(** * More on the orchestrator *)
(* ===================================================================== *)

(** A run with no other writer: the balance check leaves a row for the
    tenant; then either the run rejects and nothing more is written, or it
    fulfils and that row's balance, which was positive, is one lower. *)
Lemma quiet_run (env : Env) (input : GenerateSchemaInput.t) (db : Db) :
  quiet env ->
  let shopId := GenerateSchemaInput.shopId input in
  let run := generateProductSchema env input db in
  exists r db1 row,
    checkBalance shopId db =
      {| settled := Fulfilled r;
         after := db1;
         calls := [Invoked (CheckBalance shopId); Returned (CheckBalance shopId) (ABalance r)] |}
    /\ shops db1 !! shopId = Some row
    /\ credits row = balance r
    /\ match shops db !! shopId with
       | Some row0 => db1 = db
       | None => db1 = with_shops db (<[shopId := default_shop]> (shops db))
       end
    /\ ((exists reason, settled run = Rejected reason /\ after run = db1)
        \/ (exists valid,
              0 < balance r
              /\ validated ProductSchemaZod (model_output env (requestOf input))
                 = Fulfilled valid
              /\ settled run = Fulfilled {| schema := valid;
                                            creditsRemaining := balance r - 1 |}
              /\ after run
                 = with_shops db1 (<[shopId := set_credits row (balance r - 1)]> (shops db1)))).
Proof.
  intros Hquiet shopId run.
  destruct (checkBalance_total shopId db) as (r' & db1' & Hcb' & Hhas & Hstored & Hdb).
  destruct (generateProductSchema_cases env input db) as (r & db1 & Hcb & Hcases).
  fold shopId in Hcb. fold run in Hcases.
  rewrite Hcb in Hcb'. injection Hcb' as <- <-.
  unfold storedBalance in Hstored.
  destruct (shops db1 !! shopId) as [row|] eqn:Hrow; [|discriminate].
  injection Hstored as Hcredits.
  exists r, db1, row. split; [exact Hcb|]. split; [exact Hrow|]. split; [exact Hcredits|].
  split.
  { destruct (shops db !! shopId); tauto. }
  destruct Hcases as [(_ & Hrun) | [(_ & reason & _ & Hrun)
                                   | (Hyes & valid & d & db2 & Hgen & Hdebit & Hrun)]].
  - left. exists PaymentRequired. rewrite Hrun. split; reflexivity.
  - left. exists reason. rewrite Hrun, Hquiet. split; reflexivity.
  - right. exists valid. rewrite Hquiet in Hdebit.
    rewrite (deductCredit_existing _ _ _ _ Hrow) in Hdebit. cbv zeta in Hdebit.
    injection Hdebit as <- <-. rewrite Hrun. cbn [settled after newBalance].
    rewrite Hhas in Hyes. apply Z.ltb_lt in Hyes.
    rewrite Hcredits. repeat split; assumption.
Qed.

(** X7. With no other writer, when the ledger reports a positive balance
    [b] and the model's object passes the schema, the run fulfils with that
    object and [creditsRemaining = b - 1], and [b - 1] is the balance then
    stored: one generation costs exactly one credit, also for a tenant the
    balance check has just created. *)
Theorem successful_generation_spends_one_credit
    (env : Env) (input : GenerateSchemaInput.t) (db : Db) (b : Z) (valid : ProductSchema.t) :
  let shopId := GenerateSchemaInput.shopId input in
  let run := generateProductSchema env input db in
  quiet env ->
  settled (getBalance shopId db) = Fulfilled b ->
  0 < b ->
  validated ProductSchemaZod (model_output env (requestOf input)) = Fulfilled valid ->
  settled run = Fulfilled {| schema := valid; creditsRemaining := b - 1 |}
  /\ storedBalance shopId (after run) = Some (b - 1)
  /\ settled (getBalance shopId (after run)) = Fulfilled (b - 1).
Proof.
  intros shopId run Hquiet Hbalance Hpos Hvalid.
  destruct (quiet_run env input db Hquiet) as (r & db1 & row & Hcb & Hrow & Hcredits & _ & Hrun).
  fold shopId in Hcb, Hrow, Hrun. fold run in Hrun.
  rewrite (getBalance_settled _ _ r) in Hbalance by (rewrite Hcb; reflexivity).
  injection Hbalance as Hb. subst b.
  assert (Hstored : forall rest,
            rest = with_shops db1 (<[shopId := set_credits row (balance r - 1)]> (shops db1)) ->
            storedBalance shopId rest = Some (balance r - 1)).
  { intros rest ->. unfold storedBalance. cbn. rewrite lookup_insert_eq. reflexivity. }
  destruct Hrun as [(reason & Hrejected & _) | (valid' & _ & Hvalid' & Hfulfilled & Hafter)].
  - exfalso.
    destruct (generateProductSchema_cases env input db) as (r0 & db0 & Hcb0 & Hcases).
    fold shopId in Hcb0. fold run in Hcases.
    rewrite Hcb in Hcb0. injection Hcb0 as <- <-.
    destruct (checkBalance_total shopId db) as (r1 & db2 & Hcb1 & Hhas & _).
    rewrite Hcb in Hcb1. injection Hcb1 as <- <-.
    assert (Hyes : hasCredits r = true) by (rewrite Hhas; apply Z.ltb_lt; exact Hpos).
    destruct Hcases as [(Hno & _) | [(_ & reason' & Hgen & _)
                                    | (_ & v & d & db3 & _ & _ & Hrun)]].
    + congruence.
    + congruence.
    + rewrite Hrun in Hrejected. discriminate Hrejected.
  - rewrite Hvalid in Hvalid'. injection Hvalid' as <-.
    split; [exact Hfulfilled|]. split; [exact (Hstored _ Hafter)|].
    apply getBalance_stored. exact (Hstored _ Hafter).
Qed.

Lemma successful_generation_spends_one_credit_witness :
  quiet Sample.envOk
  /\ settled (getBalance Sample.shopId Sample.emptyDb) = Fulfilled 10
  /\ settled (generateProductSchema Sample.envOk Sample.input Sample.emptyDb)
     = Fulfilled {| schema := Sample.parsedSchema; creditsRemaining := 9 |}
  /\ storedBalance Sample.shopId
       (after (generateProductSchema Sample.envOk Sample.input Sample.emptyDb)) = Some 9.
Proof.
  assert (Hquiet : quiet Sample.envOk) by (intros db; reflexivity).
  assert (Hbalance : settled (getBalance Sample.shopId Sample.emptyDb) = Fulfilled 10)
    by (vm_compute; reflexivity).
  assert (Hvalid : validated ProductSchemaZod
                     (model_output Sample.envOk (requestOf Sample.input))
                   = Fulfilled Sample.parsedSchema) by reflexivity.
  split; [exact Hquiet|]. split; [exact Hbalance|].
  destruct (successful_generation_spends_one_credit Sample.envOk Sample.input Sample.emptyDb
              10 Sample.parsedSchema Hquiet Hbalance eq_refl Hvalid) as (Hrun & Hstored & _).
  split; [exact Hrun | exact Hstored].
Defined.

(** X8. With no other writer, a run never takes a balance below zero: if
    the tenant's stored balance is not negative before the run (or the
    tenant has no row yet), the tenant has a row after it whose balance is
    not negative, however the run ends. *)
Theorem generateProductSchema_keeps_balance_nonnegative
    (env : Env) (input : GenerateSchemaInput.t) (db : Db) :
  let shopId := GenerateSchemaInput.shopId input in
  let run := generateProductSchema env input db in
  quiet env ->
  (forall b, storedBalance shopId db = Some b -> 0 <= b) ->
  exists b', storedBalance shopId (after run) = Some b' /\ 0 <= b'.
Proof.
  intros shopId run Hquiet Hnonneg.
  destruct (quiet_run env input db Hquiet) as (r & db1 & row & _ & Hrow & Hcredits & Hdb & Hrun).
  fold shopId in Hrow, Hdb, Hrun. fold run in Hrun.
  destruct Hrun as [(reason & _ & Hafter) | (valid & Hpos & _ & _ & Hafter)]; rewrite Hafter.
  - exists (credits row). unfold storedBalance. rewrite Hrow. split; [reflexivity|].
    unfold storedBalance in Hnonneg.
    destruct (shops db !! shopId) as [row0|] eqn:Hrow0.
    + subst db1. rewrite Hrow0 in Hrow. injection Hrow as <-.
      apply Hnonneg. reflexivity.
    + subst db1. cbn in Hrow. rewrite lookup_insert_eq in Hrow. injection Hrow as <-.
      cbn. unfold DEFAULT_CREDITS. lia.
  - exists (balance r - 1). unfold storedBalance. cbn. rewrite lookup_insert_eq.
    split; [reflexivity | lia].
Qed.

Lemma generateProductSchema_keeps_balance_nonnegative_witness :
  quiet Sample.envOk
  /\ (forall b, storedBalance Sample.shopId (Sample.db 1) = Some b -> 0 <= b)
  /\ exists b',
       storedBalance Sample.shopId
         (after (generateProductSchema Sample.envOk Sample.input (Sample.db 1))) = Some b'
       /\ 0 <= b'.
Proof.
  assert (Hquiet : quiet Sample.envOk) by (intros db; reflexivity).
  assert (Hnonneg : forall b, storedBalance Sample.shopId (Sample.db 1) = Some b -> 0 <= b).
  { intros b Hb. vm_compute in Hb. injection Hb as <-. lia. }
  split; [exact Hquiet|]. split; [exact Hnonneg|].
  exact (generateProductSchema_keeps_balance_nonnegative Sample.envOk Sample.input
           (Sample.db 1) Hquiet Hnonneg).
Defined.

(** X9. With no other writer, a run writes nothing but the balance of its
    own tenant: every other tenant's row and the [ProductState] table are
    untouched, and the tenant's brand voice and onboarding flag are what
    they were (those of a fresh row when the balance check created it). *)
Theorem generateProductSchema_touches_one_balance
    (env : Env) (input : GenerateSchemaInput.t) (db : Db) (other : string) :
  let shopId := GenerateSchemaInput.shopId input in
  let run := generateProductSchema env input db in
  quiet env ->
  other <> shopId ->
  shops (after run) !! other = shops db !! other
  /\ productStates (after run) = productStates db
  /\ exists row',
       shops (after run) !! shopId = Some row'
       /\ brandVoice row' = brandVoice (default default_shop (shops db !! shopId))
       /\ isOnboarded row' = isOnboarded (default default_shop (shops db !! shopId)).
Proof.
  intros shopId run Hquiet Hother.
  destruct (quiet_run env input db Hquiet) as (r & db1 & row & _ & Hrow & _ & Hdb & Hrun).
  fold shopId in Hrow, Hdb, Hrun. fold run in Hrun.
  assert (Hcheck : shops db1 !! other = shops db !! other
                   /\ productStates db1 = productStates db
                   /\ row = default default_shop (shops db !! shopId)).
  { destruct (shops db !! shopId) as [row0|] eqn:Hrow0; subst db1.
    - rewrite Hrow0 in Hrow. injection Hrow as <-. repeat split.
    - cbn in Hrow |- *. rewrite lookup_insert_eq in Hrow. injection Hrow as <-.
      rewrite lookup_insert_ne by congruence. repeat split. }
  destruct Hcheck as (Hshops & Hstates & Hsame).
  destruct Hrun as [(reason & _ & Hafter) | (valid & _ & _ & _ & Hafter)]; rewrite Hafter.
  - split; [exact Hshops|]. split; [exact Hstates|].
    exists row. rewrite <- Hsame. repeat split. exact Hrow.
  - cbn. rewrite lookup_insert_ne by congruence.
    split; [exact Hshops|]. split; [exact Hstates|].
    eexists. rewrite lookup_insert_eq. split; [reflexivity|].
    rewrite <- Hsame. split; reflexivity.
Qed.

Lemma generateProductSchema_touches_one_balance_witness :
  quiet Sample.envOk
  /\ "other-shop.myshopify.com"%string <> GenerateSchemaInput.shopId Sample.input
  /\ productStates (after (generateProductSchema Sample.envOk Sample.input (Sample.scannedDb 5)))
     = productStates (Sample.scannedDb 5).
Proof.
  assert (Hquiet : quiet Sample.envOk) by (intros db; reflexivity).
  assert (Hother : "other-shop.myshopify.com"%string <> GenerateSchemaInput.shopId Sample.input)
    by discriminate.
  split; [exact Hquiet|]. split; [exact Hother|].
  destruct (generateProductSchema_touches_one_balance Sample.envOk Sample.input
              (Sample.scannedDb 5) _ Hquiet Hother) as (_ & Hstates & _).
  exact Hstates.
Defined.

(** X10. The credits are a hard limit.  With no other writer, however many
    times the orchestrator is called for a tenant whose stored balance is
    [b >= 0], at most [b] of the calls fulfil, and the balance stored at
    the end is [b] minus the number of calls that fulfilled. *)
Theorem credits_bound_successful_generations
    (env : Env) (inputs : list GenerateSchemaInput.t) (db : Db) (tenant : string) (b : Z) :
  quiet env ->
  Forall (fun input => GenerateSchemaInput.shopId input = tenant) inputs ->
  storedBalance tenant db = Some b ->
  0 <= b ->
  successes (fst (generateAll env inputs db)) <= b
  /\ storedBalance tenant (snd (generateAll env inputs db))
     = Some (b - successes (fst (generateAll env inputs db))).
Proof.
  intros Hquiet Hsame. revert db b.
  induction Hsame as [|input rest Htenant _ IH]; intros db b Hstored Hpos.
  - cbn. rewrite Z.sub_0_r. split; [exact Hpos | exact Hstored].
  - cbn [generateAll fst snd successes].
    destruct (quiet_run env input db Hquiet)
      as (r & db1 & row & _ & Hrow & Hcredits & Hdb & Hrun).
    rewrite Htenant in Hrow, Hdb, Hrun.
    unfold storedBalance in Hstored.
    destruct (shops db !! tenant) as [row0|] eqn:Hrow0; [|discriminate].
    injection Hstored as Hb. subst db1. rewrite Hrow0 in Hrow. injection Hrow as <-.
    destruct Hrun as [(reason & Hrejected & Hafter) | (valid & Hhas & _ & Hfulfilled & Hafter)].
    + rewrite Hrejected, Hafter. cbn [fulfilled].
      destruct (IH db b) as (Hle & Hend); [unfold storedBalance; rewrite Hrow0; cbn; congruence
                                          | exact Hpos |].
      split; [lia|]. rewrite Hend. f_equal.
    + rewrite Hfulfilled, Hafter. cbn [fulfilled].
      set (db' := with_shops db _).
      destruct (IH db' (b - 1)) as (Hle & Hend).
      { unfold storedBalance. subst db'. cbn. rewrite lookup_insert_eq. cbn.
        f_equal. lia. }
      { lia. }
      split; [lia|]. rewrite Hend. f_equal. lia.
Qed.

Lemma credits_bound_successful_generations_witness :
  quiet Sample.envOk
  /\ Forall (fun input => GenerateSchemaInput.shopId input = Sample.shopId)
       [Sample.input; Sample.otherInput; Sample.input]
  /\ storedBalance Sample.shopId (Sample.db 2) = Some 2
  /\ successes (fst (generateAll Sample.envOk
                       [Sample.input; Sample.otherInput; Sample.input] (Sample.db 2))) <= 2
  /\ storedBalance Sample.shopId
       (snd (generateAll Sample.envOk
               [Sample.input; Sample.otherInput; Sample.input] (Sample.db 2)))
     = Some (2 - successes (fst (generateAll Sample.envOk
                                   [Sample.input; Sample.otherInput; Sample.input]
                                   (Sample.db 2)))).
Proof.
  assert (Hquiet : quiet Sample.envOk) by (intros db; reflexivity).
  assert (Hsame : Forall (fun input => GenerateSchemaInput.shopId input = Sample.shopId)
                    [Sample.input; Sample.otherInput; Sample.input])
    by (repeat constructor).
  assert (Hstored : storedBalance Sample.shopId (Sample.db 2) = Some 2)
    by (vm_compute; reflexivity).
  split; [exact Hquiet|]. split; [exact Hsame|]. split; [exact Hstored|].
  assert (Hpos : 0 <= 2) by lia.
  exact (credits_bound_successful_generations Sample.envOk _ (Sample.db 2) Sample.shopId 2
           Hquiet Hsame Hstored Hpos).
Defined.

(** Two credits, three calls: two fulfil and the third is refused. *)
Example two_credits_three_calls :
  fulfilled <$> fst (generateAll Sample.envOk
                       [Sample.input; Sample.otherInput; Sample.input] (Sample.db 2))
  = [true; true; false].
Proof. vm_compute. reflexivity. Qed.

(* ===================================================================== *)
(** * Prompts, schema and canonical text *)
(* ===================================================================== *)

Lemma starts_with_append (needle rest : string) :
  starts_with needle (needle +:+ rest) = true.
Proof.
  induction needle as [|c needle IH]; [reflexivity|].
  change (starts_with (String c needle) (String c (needle +:+ rest)) = true).
  cbn [starts_with]. rewrite Ascii.eqb_refl. exact IH.
Qed.

Lemma includes_here (needle rest : string) : includes needle (needle +:+ rest) = true.
Proof.
  destruct needle as [|c needle]; [destruct rest; reflexivity|].
  change (includes (String c needle) (String c (needle +:+ rest)) = true).
  cbn [includes].
  change (String c (needle +:+ rest)) with (String c needle +:+ rest).
  rewrite starts_with_append. reflexivity.
Qed.

Lemma includes_skip (needle before rest : string) :
  includes needle rest = true -> includes needle (before +:+ rest) = true.
Proof.
  intros Hrest. induction before as [|c before IH]; [exact Hrest|].
  change (includes needle (String c (before +:+ rest)) = true).
  cbn [includes]. rewrite IH. apply orb_true_r.
Qed.

Lemma includes_last (needle : string) : includes needle needle = true.
Proof.
  destruct needle as [|c needle]; [reflexivity|].
  cbn [includes].
  assert (Hstart : forall s, starts_with s s = true).
  { induction s as [|a s IH]; [reflexivity|]. cbn. rewrite Ascii.eqb_refl. exact IH. }
  rewrite Hstart. reflexivity.
Qed.

Lemma buildUserPrompt_includes (product : ProductInput.t) :
  includes (ProductInput.title product) (buildUserPrompt product) = true
  /\ includes (ProductInput.description product) (buildUserPrompt product) = true
  /\ includes (ProductInput.vendor product) (buildUserPrompt product) = true.
Proof.
  unfold buildUserPrompt. cbn [lines].
  repeat split; repeat rewrite append_assoc;
    repeat first [apply includes_here | apply includes_last | apply includes_skip].
Qed.

Lemma buildSystemPrompt_includes (brandVoice : string) :
  includes brandVoice (buildSystemPrompt brandVoice) = true.
Proof.
  unfold buildSystemPrompt. cbn [lines]. repeat rewrite append_assoc.
  repeat first [apply includes_here | apply includes_last | apply includes_skip].
Qed.

(** X11. Whenever a run reaches the generation adapter, the request the
    adapter receives is for the model gpt-4o-mini, its prompt contains the
    product's title, description and vendor, and its system text contains
    the tenant's brand voice. *)
Theorem adapter_request_carries_product_and_brand_voice
    (env : Env) (input : GenerateSchemaInput.t) (db : Db) (request : GenerateObjectRequest) :
  let product := GenerateSchemaInput.product input in
  In (Invoked (GenerateObject request)) (calls (generateProductSchema env input db)) ->
  model request = "gpt-4o-mini"%string
  /\ includes (ProductInput.title product) (prompt request) = true
  /\ includes (ProductInput.description product) (prompt request) = true
  /\ includes (ProductInput.vendor product) (prompt request) = true
  /\ includes (GenerateSchemaInput.brandVoice input) (system request) = true.
Proof.
  intros product Hin.
  destruct (generateProductSchema_cases env input db) as (r & db1 & _ & Hcases).
  assert (Hrequest : request = requestOf input).
  { destruct Hcases as [(_ & Hrun) | [(_ & reason & _ & Hrun)
                                     | (_ & valid & d & db2 & _ & _ & Hrun)]];
      rewrite Hrun in Hin; cbn [calls] in Hin; in_trace Hin;
      injection Hin as <-; reflexivity. }
  subst request. unfold requestOf. cbn [model prompt system].
  split; [reflexivity|].
  destruct (buildUserPrompt_includes product) as (Ht & Hd & Hv).
  repeat split; try assumption. apply buildSystemPrompt_includes.
Qed.

Lemma adapter_request_carries_product_and_brand_voice_witness :
  In (Invoked (GenerateObject (requestOf Sample.input)))
     (calls (generateProductSchema Sample.envOk Sample.input (Sample.db 5)))
  /\ includes "Handcrafted Leather Wallet" (prompt (requestOf Sample.input)) = true
  /\ includes "Professional, luxury-focused, emphasizing craftsmanship"
       (system (requestOf Sample.input)) = true.
Proof.
  assert (Hin : In (Invoked (GenerateObject (requestOf Sample.input)))
                  (calls (generateProductSchema Sample.envOk Sample.input (Sample.db 5))))
    by (vm_compute; tauto).
  split; [exact Hin|].
  destruct (adapter_request_carries_product_and_brand_voice Sample.envOk Sample.input
              (Sample.db 5) _ Hin) as (_ & Htitle & _ & _ & Hvoice).
  split; [exact Htitle | exact Hvoice].
Defined.

Lemma optional_string_parses (input : option json) (output : option string) :
  z.optional z.string input = Some output <-> optional_string input output.
Proof.
  destruct input as [[| | |s| |]|]; cbn; split; intros H;
    try discriminate; try contradiction; congruence.
Qed.

Lemma literal_parses (value : string) (input : option json) :
  z.literal value input = Some tt <-> input = Some (JString value).
Proof.
  split; [apply literal_accepts|]. intros ->. cbn. rewrite String.eqb_refl. reflexivity.
Qed.

Lemma string_parses (input : option json) (s : string) :
  z.string input = Some s <-> input = Some (JString s).
Proof. split; [apply string_accepts|]. intros ->. reflexivity. Qed.

Lemma BrandZod_parses (input : option json) (brand : Brand.t) :
  BrandZod input = Some brand <->
  exists brandProps,
    input = Some (JObject brandProps)
    /\ JSON.get "@type" brandProps = Some (JString "Brand")
    /\ JSON.get "name" brandProps = Some (JString (Brand.name brand)).
Proof.
  unfold BrandZod, z.object. split.
  - destruct input as [[| | | | |brandProps]|]; try discriminate. intros Hparse.
    destruct (z.literal "Brand" (JSON.get "@type" brandProps)) as [[]|] eqn:Htype;
      cbn in Hparse; [|discriminate].
    destruct (z.string (JSON.get "name" brandProps)) as [name|] eqn:Hname;
      cbn in Hparse; [|discriminate].
    injection Hparse as <-. exists brandProps.
    apply literal_parses in Htype. apply string_parses in Hname. repeat split; assumption.
  - intros (brandProps & -> & Htype & Hname).
    apply literal_parses in Htype. apply string_parses in Hname.
    rewrite Htype. cbn. rewrite Hname. cbn. destruct brand. reflexivity.
Qed.

(** X12. What [ProductSchemaZod] accepts, exactly.  An object passes, and
    gives the typed value [valid], if and only if it is an object whose
    [@context] is the text https://schema.org, whose [@type] is Product,
    whose [name] and [description] are strings, whose [brand] is an object
    of [@type] Brand with a string [name], whose [sku], [category],
    [material] and [color] are each absent or a string, and whose [offers]
    is absent or passes the offer schema; any other property is ignored. *)
Theorem ProductSchemaZod_accepts_exactly (object : json) (valid : ProductSchema.t) :
  ProductSchemaZod (Some object) = Some valid <->
  exists props brandProps,
    object = JObject props
    /\ JSON.get "@context" props = Some (JString "https://schema.org")
    /\ JSON.get "@type" props = Some (JString "Product")
    /\ JSON.get "name" props = Some (JString (ProductSchema.name valid))
    /\ JSON.get "description" props = Some (JString (ProductSchema.description valid))
    /\ JSON.get "brand" props = Some (JObject brandProps)
    /\ JSON.get "@type" brandProps = Some (JString "Brand")
    /\ JSON.get "name" brandProps = Some (JString (Brand.name (ProductSchema.brand valid)))
    /\ optional_string (JSON.get "sku" props) (ProductSchema.sku valid)
    /\ optional_string (JSON.get "category" props) (ProductSchema.category valid)
    /\ optional_string (JSON.get "material" props) (ProductSchema.material valid)
    /\ optional_string (JSON.get "color" props) (ProductSchema.color valid)
    /\ z.optional OfferZod (JSON.get "offers" props) = Some (ProductSchema.offers valid).
Proof.
  split.
  - destruct object as [| | | | |props]; cbn; try discriminate.
    intros Hparse.
    destruct (z.literal "https://schema.org" (JSON.get "@context" props)) as [[]|] eqn:Hcontext;
      cbn in Hparse; [|discriminate].
    destruct (z.literal "Product" (JSON.get "@type" props)) as [[]|] eqn:Htype;
      cbn in Hparse; [|discriminate].
    destruct (z.string (JSON.get "name" props)) as [name|] eqn:Hname;
      cbn in Hparse; [|discriminate].
    destruct (z.string (JSON.get "description" props)) as [description|] eqn:Hdescription;
      cbn in Hparse; [|discriminate].
    destruct (BrandZod (JSON.get "brand" props)) as [brand|] eqn:Hbrand;
      cbn in Hparse; [|discriminate].
    destruct (z.optional z.string (JSON.get "sku" props)) as [sku|] eqn:Hsku;
      cbn in Hparse; [|discriminate].
    destruct (z.optional z.string (JSON.get "category" props)) as [category|] eqn:Hcategory;
      cbn in Hparse; [|discriminate].
    destruct (z.optional z.string (JSON.get "material" props)) as [material|] eqn:Hmaterial;
      cbn in Hparse; [|discriminate].
    destruct (z.optional z.string (JSON.get "color" props)) as [color|] eqn:Hcolor;
      cbn in Hparse; [|discriminate].
    destruct (z.optional OfferZod (JSON.get "offers" props)) as [offers|] eqn:Hoffers;
      cbn in Hparse; [|discriminate].
    injection Hparse as <-. cbn.
    apply BrandZod_parses in Hbrand as (brandProps & Hget & Hbtype & Hbname).
    exists props, brandProps.
    apply literal_parses in Hcontext. apply literal_parses in Htype.
    apply string_parses in Hname. apply string_parses in Hdescription.
    apply optional_string_parses in Hsku. apply optional_string_parses in Hcategory.
    apply optional_string_parses in Hmaterial. apply optional_string_parses in Hcolor.
    repeat split; assumption.
  - intros (props & brandProps & -> & Hcontext & Htype & Hname & Hdescription & Hbrand
            & Hbtype & Hbname & Hsku & Hcategory & Hmaterial & Hcolor & Hoffers).
    apply literal_parses in Hcontext. apply literal_parses in Htype.
    apply string_parses in Hname. apply string_parses in Hdescription.
    apply optional_string_parses in Hsku. apply optional_string_parses in Hcategory.
    apply optional_string_parses in Hmaterial. apply optional_string_parses in Hcolor.
    assert (Hb : BrandZod (JSON.get "brand" props) = Some (ProductSchema.brand valid)).
    { apply BrandZod_parses. exists brandProps. repeat split; assumption. }
    unfold ProductSchemaZod, z.object.
    rewrite Hcontext. cbn. rewrite Htype. cbn. rewrite Hname. cbn. rewrite Hdescription. cbn.
    rewrite Hb. cbn. rewrite Hsku. cbn. rewrite Hcategory. cbn. rewrite Hmaterial. cbn.
    rewrite Hcolor. cbn. rewrite Hoffers. cbn. destruct valid. reflexivity.
Qed.

(** X13. The text that is hashed determines the three fields: two
    products have the same canonical text exactly when they have the same
    title, the same description and the same vendor, so a change in any of
    the three always changes what the digest is computed from. *)
Theorem canonical_text_determines_fields (p q : Hasher.Product) :
  Hasher.normalized p = Hasher.normalized q <->
  Hasher.title p = Hasher.title q
  /\ Hasher.description p = Hasher.description q
  /\ Hasher.vendor p = Hasher.vendor q.
Proof.
  split.
  - apply normalized_inj.
  - intros (Ht & Hd & Hv). rewrite !normalized_canonical, Ht, Hd, Hv. reflexivity.
Qed.

(* ===================================================================== *)
(** * Metafield sync *)
(* ===================================================================== *)

(** X14. [syncSchemaToMetafield] turns every failure into a result: it
    reports [success = true] exactly when the call returned a body whose
    [userErrors] are absent or empty, and then carries no error text; in
    every other case (user errors, an [Error] thrown, anything else thrown)
    it reports [success = false] with an error text and no metafield id. *)
Theorem syncSchemaToMetafield_success_or_error (admin : SchemaSync.Admin)
    (input : SyncSchemaInput.t) :
  let r := SchemaSync.syncSchemaToMetafield admin input in
  let reply :=
    admin SchemaSync.SET_METAFIELD_MUTATION
      [ {| MetafieldsSetInput.ownerId := SyncSchemaInput.productId input;
           MetafieldsSetInput.namespace := "ai_geo";
           MetafieldsSetInput.key := "product_schema";
           MetafieldsSetInput.type := "json";
           MetafieldsSetInput.value := JSON.stringify (SyncSchemaInput.schema input) |} ] in
  (SyncSchemaResult.success r = true <->
   exists result,
     reply = Replied result
     /\ ((GraphqlResult.data result ≫= GraphqlData.metafieldsSet)
           ≫= MetafieldsSetPayload.userErrors = None
         \/ (GraphqlResult.data result ≫= GraphqlData.metafieldsSet)
              ≫= MetafieldsSetPayload.userErrors = Some []))
  /\ (SyncSchemaResult.success r = true <-> SyncSchemaResult.error r = None)
  /\ (SyncSchemaResult.success r = false ->
      SyncSchemaResult.metafieldId r = None
      /\ exists text, SyncSchemaResult.error r = Some text).
Proof.
  intros r reply. subst r. unfold SchemaSync.syncSchemaToMetafield. fold reply.
  destruct reply as [result|[error|]].
  - destruct ((GraphqlResult.data result ≫= GraphqlData.metafieldsSet)
                ≫= MetafieldsSetPayload.userErrors) as [[|e es]|] eqn:Herrors;
      cbn [SyncSchemaResult.success SyncSchemaResult.error SyncSchemaResult.metafieldId].
    + split; [|split].
      * split; [intros _; exists result; split; [reflexivity | right; exact Herrors]
               | reflexivity].
      * split; reflexivity.
      * discriminate.
    + split; [|split].
      * split; [discriminate|]. intros (result' & [= <-] & [H|H]); congruence.
      * split; discriminate.
      * intros _. split; [reflexivity | eexists; reflexivity].
    + split; [|split].
      * split; [intros _; exists result; split; [reflexivity | left; exact Herrors]
               | reflexivity].
      * split; reflexivity.
      * discriminate.
  - cbn. split; [|split].
    + split; [discriminate|]. intros (result' & H & _). discriminate H.
    + split; discriminate.
    + intros _. split; [reflexivity | eexists; reflexivity].
  - cbn. split; [|split].
    + split; [discriminate|]. intros (result' & H & _). discriminate H.
    + split; discriminate.
    + intros _. split; [reflexivity | eexists; reflexivity].
Qed.

Lemma concat_includes (sep : string) (texts : list string) (text : string) :
  In text texts -> includes text (String.concat sep texts) = true.
Proof.
  induction texts as [|first rest IH]; [contradiction|].
  intros [-> | Hin].
  - destruct rest as [|second rest]; [apply includes_last|].
    change (includes text (text +:+ sep +:+ String.concat sep (second :: rest)) = true).
    apply includes_here.
  - destruct rest as [|second rest]; [contradiction|].
    change (includes text (first +:+ sep +:+ String.concat sep (second :: rest)) = true).
    apply includes_skip, includes_skip, IH, Hin.
Qed.

(** X15. When the API answers with user errors, the sync fails even if the
    answer also lists metafields, and the error text is the messages in
    the order returned, separated by a comma and a space: every message
    returned can be read in it. *)
Theorem syncSchemaToMetafield_reports_user_errors (admin : SchemaSync.Admin)
    (input : SyncSchemaInput.t) (result : GraphqlResult.t)
    (payload : MetafieldsSetPayload.t) (e : UserError.t) (es : list UserError.t) :
  admin SchemaSync.SET_METAFIELD_MUTATION
    [ {| MetafieldsSetInput.ownerId := SyncSchemaInput.productId input;
         MetafieldsSetInput.namespace := "ai_geo";
         MetafieldsSetInput.key := "product_schema";
         MetafieldsSetInput.type := "json";
         MetafieldsSetInput.value := JSON.stringify (SyncSchemaInput.schema input) |} ]
  = Replied result ->
  GraphqlResult.data result ≫= GraphqlData.metafieldsSet = Some payload ->
  MetafieldsSetPayload.userErrors payload = Some (e :: es) ->
  let r := SchemaSync.syncSchemaToMetafield admin input in
  SyncSchemaResult.success r = false
  /\ SyncSchemaResult.metafieldId r = None
  /\ SyncSchemaResult.error r
     = Some (String.concat ", " (UserError.message <$> e :: es))
  /\ exists text,
       SyncSchemaResult.error r = Some text
       /\ Forall (fun err => includes (UserError.message err) text = true) (e :: es).
Proof.
  intros Hreply Hpayload Herrors r. subst r.
  unfold SchemaSync.syncSchemaToMetafield. rewrite Hreply. cbv zeta.
  rewrite Hpayload. cbn [mbind option_bind]. rewrite Herrors.
  cbn [SyncSchemaResult.success SyncSchemaResult.error SyncSchemaResult.metafieldId].
  repeat split. eexists. split; [reflexivity|].
  apply Forall_forall. intros err Hin. apply concat_includes.
  apply list_elem_of_In, list_elem_of_fmap. exists err. split; [reflexivity|].
  exact Hin.
Qed.

Lemma syncSchemaToMetafield_reports_user_errors_witness :
  SyncSchemaResult.success
    (SchemaSync.syncSchemaToMetafield RouteSample.refusingAdmin RouteSample.syncInput) = false
  /\ SyncSchemaResult.error
       (SchemaSync.syncSchemaToMetafield RouteSample.refusingAdmin RouteSample.syncInput)
     = Some "Value is invalid JSON., Owner does not exist."%string.
Proof.
  destruct (syncSchemaToMetafield_reports_user_errors RouteSample.refusingAdmin
              RouteSample.syncInput RouteSample.refusal _ _ _ eq_refl eq_refl eq_refl)
    as (Hfail & _ & Htext & _).
  split; [exact Hfail | exact Htext].
Defined.

(* ===================================================================== *)
(** * Dashboard and onboarding routes *)
(* ===================================================================== *)

(** X16. The two loaders send every shop to exactly one page: a shop that
    is missing or not onboarded is redirected by the dashboard to
    /app/onboarding and not redirected by the onboarding; an onboarded shop
    is redirected by the onboarding to /app and not redirected by the
    dashboard.  They never redirect to each other in a loop. *)
Theorem loaders_send_a_shop_to_one_page (admin : AdminApi.t) (shopDomain : string) (db : Db) :
  let onboarded :=
    match shops db !! shopDomain with
    | Some row => isOnboarded row
    | None => false
    end in
  if onboarded
  then redirects (Dashboard.loader admin shopDomain db) = None
       /\ Onboarding.loader admin shopDomain db = Redirected "/app"
  else Dashboard.loader admin shopDomain db = Redirected "/app/onboarding"
       /\ redirects (Onboarding.loader admin shopDomain db) = None.
Proof.
  intros onboarded. subst onboarded.
  unfold Dashboard.loader, Onboarding.loader, prisma.findUnique. cbn [settled].
  destruct (shops db !! shopDomain) as [row|]; [destruct (isOnboarded row)|]; cbn [negb].
  - split; [|reflexivity]. destruct (AdminApi.productsCount admin); reflexivity.
  - split; [reflexivity|]. destruct (AdminApi.firstProduct admin); reflexivity.
  - split; [reflexivity|]. destruct (AdminApi.firstProduct admin); reflexivity.
Qed.

Lemma productState_count_partition (shopDomain : string) (db : Db) :
  (productState_count (productState_where shopDomain true) db
   + productState_count (productState_where shopDomain false) db)%nat
  = productState_count (fun row => String.eqb (shop row) shopDomain) db.
Proof.
  unfold productState_count.
  induction (productStates db) as [|key row table Hfresh IH] using map_ind.
  - rewrite !map_filter_empty, !map_size_empty. reflexivity.
  - rewrite !map_filter_insert. rewrite !delete_id by exact Hfresh. cbn [snd].
    unfold productState_where in *.
    destruct (String.eqb (shop row) shopDomain), (isSynced row); cbn [andb Bool.eqb];
      repeat case_decide; try congruence;
      rewrite ?map_size_insert_None by (apply map_lookup_filter_None_2; left; exact Hfresh);
      lia.
Qed.

(** X17. When the dashboard renders, the synced and the pending counts it
    shows add up to the number of [ProductState] rows of the shop, and the
    credits it shows are the stored balance. *)
Theorem dashboard_counts_add_up (admin : AdminApi.t) (shopDomain : string) (db : Db)
    (data : DashboardData.t) :
  Dashboard.loader admin shopDomain db = Rendered data ->
  (DashboardData.syncedProducts data + DashboardData.pendingProducts data)%nat
  = productState_count (fun row => String.eqb (shop row) shopDomain) db
  /\ storedBalance shopDomain db = Some (DashboardData.credits data).
Proof.
  unfold Dashboard.loader, prisma.findUnique, storedBalance. cbn [settled].
  destruct (shops db !! shopDomain) as [row|]; [|discriminate].
  destruct (isOnboarded row); cbn [negb]; [|discriminate].
  destruct (AdminApi.productsCount admin) as [count|]; [|discriminate].
  intros [= <-]. cbn [DashboardData.syncedProducts DashboardData.pendingProducts
                      DashboardData.credits].
  split; [apply productState_count_partition | reflexivity].
Qed.

Lemma dashboard_counts_add_up_witness :
  exists data,
    Dashboard.loader RouteSample.admin Sample.shopId RouteSample.onboardedDb = Rendered data
    /\ (DashboardData.syncedProducts data + DashboardData.pendingProducts data)%nat
       = productState_count (fun row => String.eqb (shop row) Sample.shopId)
           RouteSample.onboardedDb
    /\ storedBalance Sample.shopId RouteSample.onboardedDb
       = Some (DashboardData.credits data).
Proof.
  destruct (Dashboard.loader RouteSample.admin Sample.shopId RouteSample.onboardedDb)
    as [data|path|reason] eqn:Hloader.
  - exists data. split; [reflexivity|].
    exact (dashboard_counts_add_up RouteSample.admin Sample.shopId RouteSample.onboardedDb
             data Hloader).
  - vm_compute in Hloader. discriminate Hloader.
  - vm_compute in Hloader. discriminate Hloader.
Defined.

(** X18. The credits the onboarding page shows are the balance the ledger
    reports for the shop: the stored balance, and 10 for a shop that has no
    row yet, which is what the first balance check will create. *)
Theorem onboarding_shows_the_ledger_balance (admin : AdminApi.t) (shopDomain : string)
    (db : Db) (data : OnboardingData.t) :
  Onboarding.loader admin shopDomain db = Rendered data ->
  settled (getBalance shopDomain db) = Fulfilled (OnboardingData.credits data)
  /\ OnboardingData.shopDomain data = shopDomain.
Proof.
  intros Hloader.
  unfold Onboarding.loader, prisma.findUnique in Hloader. cbn [settled] in Hloader.
  destruct (shops db !! shopDomain) as [row|] eqn:Hrow.
  - destruct (isOnboarded row); [discriminate|].
    destruct (AdminApi.firstProduct admin); [|discriminate].
    injection Hloader as <-. cbn. split; [|reflexivity].
    apply getBalance_stored. unfold storedBalance. rewrite Hrow. reflexivity.
  - destruct (AdminApi.firstProduct admin); [|discriminate].
    injection Hloader as <-. cbn. split; [|reflexivity].
    rewrite (getBalance_settled _ _ {| hasCredits := true; balance := DEFAULT_CREDITS |})
      by (rewrite (checkBalance_absent _ _ Hrow); reflexivity).
    reflexivity.
Qed.

Lemma onboarding_shows_the_ledger_balance_witness :
  exists data,
    Onboarding.loader RouteSample.admin Sample.shopId Sample.emptyDb = Rendered data
    /\ settled (getBalance Sample.shopId Sample.emptyDb)
       = Fulfilled (OnboardingData.credits data).
Proof.
  destruct (Onboarding.loader RouteSample.admin Sample.shopId Sample.emptyDb)
    as [data|path|reason] eqn:Hloader.
  - exists data. split; [reflexivity|].
    exact (proj1 (onboarding_shows_the_ledger_balance RouteSample.admin Sample.shopId
                    Sample.emptyDb data Hloader)).
  - vm_compute in Hloader. discriminate Hloader.
  - vm_compute in Hloader. discriminate Hloader.
Defined.

Lemma or_default_filled (value : option string) (fallback : string) :
  fallback <> EmptyString -> or_default value fallback <> EmptyString.
Proof.
  intros Hfallback. destruct value as [[|c rest]|]; cbn; [exact Hfallback | discriminate
                                                         | exact Hfallback].
Qed.

(** X19. The product the onboarding page shows always has a title and a
    vendor: a null or empty title becomes Untitled Product, a null or empty
    vendor becomes Unknown, and a title or vendor that is filled in is
    shown as it is. *)
Theorem onboarding_product_has_title_and_vendor (admin : AdminApi.t) (shopDomain : string)
    (db : Db) (data : OnboardingData.t) (product : ProductData.t) :
  Onboarding.loader admin shopDomain db = Rendered data ->
  OnboardingData.product data = Some product ->
  ProductData.title product <> EmptyString
  /\ ProductData.vendor product <> EmptyString
  /\ exists node,
       AdminApi.firstProduct admin = Fulfilled (Some node)
       /\ ProductData.title product = or_default (ProductNode.title node) "Untitled Product"
       /\ ProductData.vendor product = or_default (ProductNode.vendor node) "Unknown"
       /\ (forall c rest, ProductNode.title node = Some (String c rest) ->
           ProductData.title product = String c rest).
Proof.
  intros Hloader Hproduct.
  unfold Onboarding.loader, prisma.findUnique in Hloader. cbn [settled] in Hloader.
  destruct (match shops db !! shopDomain with
            | Some row => isOnboarded row
            | None => false
            end); [discriminate|].
  destruct (AdminApi.firstProduct admin) as [[node|]|]; try discriminate.
  - injection Hloader as <-. cbn in Hproduct. injection Hproduct as <-.
    cbn [Onboarding.toProductData ProductData.title ProductData.vendor].
    split; [apply or_default_filled; discriminate|].
    split; [apply or_default_filled; discriminate|].
    exists node. repeat split. intros c rest ->. reflexivity.
  - injection Hloader as <-. discriminate Hproduct.
Qed.

Lemma onboarding_product_has_title_and_vendor_witness :
  exists data product,
    Onboarding.loader RouteSample.admin Sample.shopId Sample.emptyDb = Rendered data
    /\ OnboardingData.product data = Some product
    /\ ProductData.title product <> EmptyString
    /\ ProductData.vendor product <> EmptyString.
Proof.
  destruct (Onboarding.loader RouteSample.admin Sample.shopId Sample.emptyDb)
    as [data|path|reason] eqn:Hloader.
  - destruct (OnboardingData.product data) as [product|] eqn:Hproduct.
    + exists data, product. split; [reflexivity|]. split; [exact Hproduct|].
      destruct (onboarding_product_has_title_and_vendor RouteSample.admin Sample.shopId
                  Sample.emptyDb data product Hloader Hproduct) as (Htitle & Hvendor & _).
      split; [exact Htitle | exact Hvendor].
    + vm_compute in Hloader. injection Hloader as <-. discriminate Hproduct.
  - vm_compute in Hloader. discriminate Hloader.
  - vm_compute in Hloader. discriminate Hloader.
Defined.

Lemma label_of_prompt (tone : BrandTone.t) :
  Dashboard.brandVoiceLabel (Some (BrandTone.prompt tone)) = BrandTone.label tone.
Proof. destruct tone; vm_compute; reflexivity. Qed.

Lemma intent_is_approve (form : FormData.t) :
  FormData.intent form = Some "approve"%string ->
  Onboarding.intent_is form "generate" = false /\ Onboarding.intent_is form "approve" = true.
Proof. intros H. unfold Onboarding.intent_is. rewrite H. split; reflexivity. Qed.

(** X20. Approving a brand tone onboards the shop and costs nothing.  The
    action redirects to /app without crossing the ledger or the adapter;
    the shop's balance is the one it had (10 if it had no row); from then
    on the onboarding loader redirects to /app, and the dashboard, when the
    admin API answers, renders with that balance and with the label of the
    tone that was approved. *)
Theorem approve_onboards_and_keeps_credits
    (parse : string -> Settled ProductData.t) (env : Env) (admin : AdminApi.t)
    (shopDomain : string) (form : FormData.t) (tone : BrandTone.t) (db : Db) (count : option Z) :
  let visit := Onboarding.action parse env shopDomain form db in
  let kept := default 10 (storedBalance shopDomain db) in
  FormData.intent form = Some "approve"%string ->
  FormData.brandTone form = Some tone ->
  AdminApi.productsCount admin = Fulfilled count ->
  response visit = Redirected "/app"
  /\ crossings visit = []
  /\ storedBalance shopDomain (database visit) = Some kept
  /\ productStates (database visit) = productStates db
  /\ Onboarding.loader admin shopDomain (database visit) = Redirected "/app"
  /\ exists data,
       Dashboard.loader admin shopDomain (database visit) = Rendered data
       /\ DashboardData.credits data = kept
       /\ DashboardData.brandVoice data = BrandTone.label tone.
Proof.
  intros visit kept Hintent Htone Hcount. subst visit kept.
  destruct (intent_is_approve form Hintent) as [Hnot Hyes].
  unfold Onboarding.action. rewrite Hnot, Hyes, Htone. cbv iota.
  unfold prisma.upsert. cbn [response database crossings settled after].
  unfold Dashboard.loader, Onboarding.loader, prisma.findUnique, storedBalance.
  cbn [settled shops productStates with_shops]. rewrite !lookup_insert_eq.
  destruct (shops db !! shopDomain) as [row|];
    cbn [isOnboarded negb credits brandVoice fmap option_fmap option_map default];
    rewrite Hcount, label_of_prompt;
    repeat split; eexists; repeat split.
Qed.

Lemma approve_onboards_and_keeps_credits_witness :
  response (Onboarding.action RouteSample.parse Sample.envOk Sample.shopId
              RouteSample.approveForm (Sample.db 5)) = Redirected "/app"
  /\ storedBalance Sample.shopId
       (database (Onboarding.action RouteSample.parse Sample.envOk Sample.shopId
                    RouteSample.approveForm (Sample.db 5))) = Some 5
  /\ exists data,
       Dashboard.loader RouteSample.admin Sample.shopId
         (database (Onboarding.action RouteSample.parse Sample.envOk Sample.shopId
                      RouteSample.approveForm (Sample.db 5))) = Rendered data
       /\ DashboardData.brandVoice data = "Storyteller"%string.
Proof.
  destruct (approve_onboards_and_keeps_credits RouteSample.parse Sample.envOk
              RouteSample.admin Sample.shopId RouteSample.approveForm BrandTone.storyteller
              (Sample.db 5) (Some 3) eq_refl eq_refl eq_refl)
    as (Hresponse & _ & Hkept & _ & _ & data & Hdata & _ & Hlabel).
  split; [exact Hresponse|]. split; [exact Hkept|].
  exists data. split; [exact Hdata | exact Hlabel].
Defined.

Lemma action_generate
    (parse : string -> Settled ProductData.t) (env : Env) (shopDomain : string)
    (form : FormData.t) (tone : BrandTone.t) (c : ascii) (rest : string)
    (product : ProductData.t) (db : Db) :
  FormData.intent form = Some "generate"%string ->
  FormData.brandTone form = Some tone ->
  FormData.product form = Some (String c rest) ->
  parse (String c rest) = Fulfilled product ->
  Onboarding.action parse env shopDomain form db =
    let run := generateProductSchema env (Onboarding.previewInput shopDomain tone product) db in
    {| response :=
         match settled run with
         | Fulfilled result =>
             Rendered {| ActionData.schema := Some (schema result);
                         ActionData.creditsRemaining := Some (creditsRemaining result);
                         ActionData.error := None |}
         | Rejected error => Rendered (Onboarding.failed (message error))
         end;
       database := after run;
       crossings := calls run |}.
Proof.
  intros Hintent Htone Hproduct Hparse.
  unfold Onboarding.action, Onboarding.intent_is.
  rewrite Hintent, Htone, Hproduct, Hparse. reflexivity.
Qed.

(** X21. A preview asked for by a shop whose balance is zero or less calls
    no model and writes nothing: the action renders the 402 message as its
    error, with no schema, after the one balance check; it neither throws
    nor redirects. *)
Theorem preview_without_credits_shows_402
    (parse : string -> Settled ProductData.t) (env : Env) (shopDomain : string)
    (form : FormData.t) (tone : BrandTone.t) (c : ascii) (rest : string)
    (product : ProductData.t) (db : Db) (b : Z) :
  let visit := Onboarding.action parse env shopDomain form db in
  FormData.intent form = Some "generate"%string ->
  FormData.brandTone form = Some tone ->
  FormData.product form = Some (String c rest) ->
  parse (String c rest) = Fulfilled product ->
  storedBalance shopDomain db = Some b ->
  b <= 0 ->
  response visit
  = Rendered {| ActionData.schema := None;
                ActionData.creditsRemaining := None;
                ActionData.error := Some (message PaymentRequired) |}
  /\ database visit = db
  /\ crossings visit
     = [Invoked (CheckBalance shopDomain);
        Returned (CheckBalance shopDomain) (ABalance {| hasCredits := false; balance := b |})].
Proof.
  intros visit Hintent Htone Hproduct Hparse Hstored Hb. subst visit.
  rewrite (action_generate _ _ _ _ _ _ _ _ _ Hintent Htone Hproduct Hparse). cbv zeta.
  unfold storedBalance in Hstored.
  destruct (shops db !! shopDomain) as [row|] eqn:Hrow; [|discriminate].
  injection Hstored as Hcredits.
  rewrite generateProductSchema_unfold.
  change (GenerateSchemaInput.shopId (Onboarding.previewInput shopDomain tone product))
    with shopDomain.
  cbv zeta. rewrite (checkBalance_existing _ _ _ Hrow). cbn [settled after calls hasCredits].
  rewrite Hcredits.
  assert (Hno : (0 <? b) = false) by (apply Z.ltb_ge; exact Hb).
  rewrite Hno. cbn [negb response database crossings settled after calls].
  repeat split.
Qed.

Lemma preview_without_credits_shows_402_witness :
  response (Onboarding.action RouteSample.parse Sample.envOk Sample.shopId
              RouteSample.generateForm (Sample.db 0))
  = Rendered {| ActionData.schema := None;
                ActionData.creditsRemaining := None;
                ActionData.error := Some (message PaymentRequired) |}
  /\ database (Onboarding.action RouteSample.parse Sample.envOk Sample.shopId
                 RouteSample.generateForm (Sample.db 0)) = Sample.db 0.
Proof.
  assert (Hstored : storedBalance Sample.shopId (Sample.db 0) = Some 0)
    by (vm_compute; reflexivity).
  assert (Hb : 0 <= 0) by lia.
  destruct (preview_without_credits_shows_402 RouteSample.parse Sample.envOk Sample.shopId
              RouteSample.generateForm BrandTone.storyteller _ _ RouteSample.productData
              (Sample.db 0) 0 eq_refl eq_refl eq_refl eq_refl Hstored Hb)
    as (Hresponse & Hdb & _).
  split; [exact Hresponse | exact Hdb].
Defined.

Lemma quiet_success (env : Env) (input : GenerateSchemaInput.t) (db db1 : Db)
    (r : CheckBalanceResult) (valid : ProductSchema.t) :
  let shopId := GenerateSchemaInput.shopId input in
  let run := generateProductSchema env input db in
  quiet env ->
  settled (checkBalance shopId db) = Fulfilled r ->
  after (checkBalance shopId db) = db1 ->
  0 < balance r ->
  validated ProductSchemaZod (model_output env (requestOf input)) = Fulfilled valid ->
  settled run = Fulfilled {| schema := valid; creditsRemaining := balance r - 1 |}
  /\ exists row,
       shops db1 !! shopId = Some row
       /\ credits row = balance r
       /\ after run = with_shops db1 (<[shopId := set_credits row (balance r - 1)]> (shops db1)).
Proof.
  intros shopId run Hquiet Hr Hdb1 Hpos Hvalid.
  destruct (quiet_run env input db Hquiet) as (r' & db1' & row & Hcb & Hrow & Hcredits & _ & Hrun).
  fold shopId in Hcb, Hrow, Hrun. fold run in Hrun.
  rewrite Hcb in Hr, Hdb1. cbn in Hr, Hdb1. injection Hr as ->. subst db1'.
  destruct Hrun as [(reason & Hrejected & _) | (valid' & _ & Hvalid' & Hfulfilled & Hafter)].
  - exfalso.
    destruct (generateProductSchema_cases env input db) as (r0 & db0 & Hcb0 & Hcases).
    fold shopId in Hcb0. fold run in Hcases.
    rewrite Hcb in Hcb0. injection Hcb0 as <- <-.
    destruct (checkBalance_total shopId db) as (r1 & db2 & Hcb1 & Hhas & _).
    rewrite Hcb in Hcb1. injection Hcb1 as <- <-.
    assert (Hyes : hasCredits r = true) by (rewrite Hhas; apply Z.ltb_lt; exact Hpos).
    destruct Hcases as [(Hno & _) | [(_ & reason' & Hgen & _)
                                    | (_ & v & d & db3 & _ & _ & Hrun)]].
    + congruence.
    + congruence.
    + rewrite Hrun in Hrejected. discriminate Hrejected.
  - rewrite Hvalid in Hvalid'. injection Hvalid' as <-.
    split; [exact Hfulfilled|]. exists row. repeat split; assumption.
Qed.

(** X22. A preview costs the credit the page shows.  With no other
    writer, when the onboarding page shows [n > 0] credits and the model's
    object passes the schema, the action renders that object with
    [creditsRemaining = n - 1] and no error, and the page loaded again
    shows [n - 1] credits and the same product. *)
Theorem preview_costs_the_credit_shown
    (parse : string -> Settled ProductData.t) (env : Env) (admin : AdminApi.t)
    (shopDomain : string) (form : FormData.t) (tone : BrandTone.t) (c : ascii) (rest : string)
    (product : ProductData.t) (db : Db) (shown : OnboardingData.t) (valid : ProductSchema.t) :
  let visit := Onboarding.action parse env shopDomain form db in
  quiet env ->
  FormData.intent form = Some "generate"%string ->
  FormData.brandTone form = Some tone ->
  FormData.product form = Some (String c rest) ->
  parse (String c rest) = Fulfilled product ->
  Onboarding.loader admin shopDomain db = Rendered shown ->
  0 < OnboardingData.credits shown ->
  validated ProductSchemaZod
    (model_output env (requestOf (Onboarding.previewInput shopDomain tone product)))
  = Fulfilled valid ->
  response visit
  = Rendered {| ActionData.schema := Some valid;
                ActionData.creditsRemaining := Some (OnboardingData.credits shown - 1);
                ActionData.error := None |}
  /\ exists again,
       Onboarding.loader admin shopDomain (database visit) = Rendered again
       /\ OnboardingData.credits again = OnboardingData.credits shown - 1
       /\ OnboardingData.product again = OnboardingData.product shown.
Proof.
  intros visit Hquiet Hintent Htone Hproduct Hparse Hshown Hpos Hvalid. subst visit.
  rewrite (action_generate _ _ _ _ _ _ _ _ _ Hintent Htone Hproduct Hparse). cbv zeta.
  cbn [response database].
  set (input := Onboarding.previewInput shopDomain tone product) in *.
  destruct (checkBalance_total shopDomain db) as (r & db1 & Hcb & _ & _ & Hdb).
  unfold Onboarding.loader, prisma.findUnique in Hshown. cbn [settled] in Hshown.
  assert (Hflag : match shops db !! shopDomain with
                  | Some row => isOnboarded row
                  | None => false
                  end = false).
  { destruct (match shops db !! shopDomain with
              | Some row => isOnboarded row
              | None => false
              end); [discriminate | reflexivity]. }
  rewrite Hflag in Hshown.
  destruct (AdminApi.firstProduct admin) as [edge|] eqn:Hedge; [|discriminate].
  injection Hshown as <-. cbn [OnboardingData.credits OnboardingData.product] in *.
  assert (Hbalance : balance r = match shops db !! shopDomain with
                                 | Some row => credits row
                                 | None => 10
                                 end).
  { destruct (shops db !! shopDomain); destruct Hdb as [_ ->]; reflexivity. }
  destruct (quiet_success env input db db1 r valid Hquiet) as (Hrun & row & Hrow & Hcredits & Hafter).
  { change (GenerateSchemaInput.shopId input) with shopDomain. rewrite Hcb. reflexivity. }
  { change (GenerateSchemaInput.shopId input) with shopDomain. rewrite Hcb. reflexivity. }
  { rewrite Hbalance. exact Hpos. }
  { exact Hvalid. }
  change (GenerateSchemaInput.shopId input) with shopDomain in Hrow, Hafter.
  rewrite Hrun. cbn [schema creditsRemaining]. rewrite Hbalance. split; [reflexivity|].
  rewrite Hafter. unfold Onboarding.loader, prisma.findUnique.
  cbn [settled shops with_shops]. rewrite lookup_insert_eq. cbn [isOnboarded set_credits credits].
  assert (Hrowflag : isOnboarded row = false).
  { destruct (shops db !! shopDomain) as [row0|] eqn:Hrow0; destruct Hdb as [-> _].
    - rewrite Hrow0 in Hrow. injection Hrow as <-. exact Hflag.
    - cbn in Hrow. rewrite lookup_insert_eq in Hrow. injection Hrow as <-. reflexivity. }
  rewrite Hrowflag, Hedge. eexists. split; [reflexivity|].
  cbn [OnboardingData.credits OnboardingData.product]. rewrite Hbalance. split; reflexivity.
Qed.

Lemma preview_costs_the_credit_shown_witness :
  quiet Sample.envOk
  /\ (exists shown,
        Onboarding.loader RouteSample.admin Sample.shopId Sample.emptyDb = Rendered shown
        /\ OnboardingData.credits shown = 10)
  /\ response (Onboarding.action RouteSample.parse Sample.envOk Sample.shopId
                 RouteSample.generateForm Sample.emptyDb)
     = Rendered {| ActionData.schema := Some Sample.parsedSchema;
                   ActionData.creditsRemaining := Some 9;
                   ActionData.error := None |}.
Proof.
  assert (Hquiet : quiet Sample.envOk) by (intros db; reflexivity).
  split; [exact Hquiet|].
  destruct (Onboarding.loader RouteSample.admin Sample.shopId Sample.emptyDb)
    as [shown|path|reason] eqn:Hloader.
  - assert (Hcredits : OnboardingData.credits shown = 10)
      by (vm_compute in Hloader; injection Hloader as <-; reflexivity).
    split; [exists shown; split; [reflexivity | exact Hcredits]|].
    assert (Hpos : 0 < OnboardingData.credits shown) by (rewrite Hcredits; lia).
    destruct (preview_costs_the_credit_shown RouteSample.parse Sample.envOk RouteSample.admin
                Sample.shopId RouteSample.generateForm BrandTone.storyteller _ _
                RouteSample.productData Sample.emptyDb shown Sample.parsedSchema
                Hquiet eq_refl eq_refl eq_refl eq_refl Hloader Hpos eq_refl) as (Hresponse & _).
    rewrite Hcredits in Hresponse. exact Hresponse.
  - vm_compute in Hloader. discriminate Hloader.
  - vm_compute in Hloader. discriminate Hloader.
Defined.

(** X23. A preview never onboards: with no other writer, whatever the
    form holds and however the generation ends, the shop's onboarding flag
    after the [generate] action is the one it had before (and a shop the
    balance check creates is not onboarded). *)
Theorem preview_never_onboards
    (parse : string -> Settled ProductData.t) (env : Env) (shopDomain : string)
    (form : FormData.t) (db : Db) :
  quiet env ->
  FormData.intent form = Some "generate"%string ->
  onboarded shopDomain (database (Onboarding.action parse env shopDomain form db))
  = onboarded shopDomain db.
Proof.
  intros Hquiet Hintent.
  unfold Onboarding.action, Onboarding.intent_is. rewrite Hintent.
  change (String.eqb "generate" "generate") with true. cbv iota.
  destruct (FormData.brandTone form) as [tone|]; [|reflexivity].
  destruct (FormData.product form) as [[|c rest]|]; [reflexivity| |reflexivity].
  destruct (parse (String c rest)) as [product|reason]; [|reflexivity].
  cbn [database].
  set (input := Onboarding.previewInput shopDomain tone product).
  destruct (quiet_run env input db Hquiet) as (r & db1 & row & _ & Hrow & _ & Hdb & Hrun).
  change (GenerateSchemaInput.shopId input) with shopDomain in Hrow, Hdb, Hrun.
  assert (Hflag : isOnboarded row = onboarded shopDomain db).
  { unfold onboarded. destruct (shops db !! shopDomain) as [row0|] eqn:Hrow0; subst db1.
    - rewrite Hrow0 in Hrow. injection Hrow as <-. reflexivity.
    - cbn in Hrow. rewrite lookup_insert_eq in Hrow. injection Hrow as <-. reflexivity. }
  destruct Hrun as [(reason & _ & Hafter) | (valid & _ & _ & _ & Hafter)]; rewrite Hafter.
  - unfold onboarded at 1. rewrite Hrow. exact Hflag.
  - unfold onboarded at 1. cbn. rewrite lookup_insert_eq. exact Hflag.
Qed.

Lemma preview_never_onboards_witness :
  quiet Sample.envOk
  /\ onboarded Sample.shopId
       (database (Onboarding.action RouteSample.parse Sample.envOk Sample.shopId
                    RouteSample.generateForm Sample.emptyDb))
     = onboarded Sample.shopId Sample.emptyDb.
Proof.
  assert (Hquiet : quiet Sample.envOk) by (intros db; reflexivity).
  split; [exact Hquiet|].
  exact (preview_never_onboards RouteSample.parse Sample.envOk Sample.shopId
           RouteSample.generateForm Sample.emptyDb Hquiet eq_refl).
Defined.

(* ===================================================================== *)
(** * The gate and the debit, together *)
(* ===================================================================== *)

(** X24. The balance check and the debit are two separate steps.  When
    another writer debits [k] credits of the same tenant while the model
    runs, a run admitted on a balance of [n > 0] still fulfils and debits:
    it reports and stores [n - k - 1], which is below zero as soon as
    [k >= n]. *)
Theorem concurrent_debit_overdraws
    (env : Env) (input : GenerateSchemaInput.t) (db : Db) (row : Shop) (k : Z)
    (valid : ProductSchema.t) :
  let shopId := GenerateSchemaInput.shopId input in
  let run := generateProductSchema env input db in
  shops db !! shopId = Some row ->
  0 < credits row ->
  meanwhile env db = after (deductCredit shopId k db) ->
  validated ProductSchemaZod (model_output env (requestOf input)) = Fulfilled valid ->
  settled run = Fulfilled {| schema := valid; creditsRemaining := credits row - k - 1 |}
  /\ storedBalance shopId (after run) = Some (credits row - k - 1)
  /\ (credits row <= k -> credits row - k - 1 < 0).
Proof.
  intros shopId run Hrow Hpos Hrace Hvalid. subst run.
  rewrite generateProductSchema_unfold. fold shopId. cbv zeta.
  rewrite (checkBalance_existing _ _ _ Hrow). cbn [settled after calls hasCredits].
  assert (Hyes : (0 <? credits row) = true) by (apply Z.ltb_lt; exact Hpos).
  rewrite Hyes. cbn [negb].
  unfold generateObject, traced. cbn [settled after calls]. rewrite Hvalid, Hrace.
  rewrite (deductCredit_existing _ _ _ _ Hrow). cbn [after].
  erewrite deductCredit_existing by (cbn; apply lookup_insert_eq).
  cbn [settled after newBalance set_credits credits].
  split; [reflexivity|]. split; [|lia].
  unfold storedBalance. cbn. rewrite lookup_insert_eq. reflexivity.
Qed.

Lemma concurrent_debit_overdraws_witness :
  shops (Sample.db 1) !! GenerateSchemaInput.shopId Sample.input = Some (Sample.tenant 1)
  /\ settled (generateProductSchema RouteSample.envRace Sample.input (Sample.db 1))
     = Fulfilled {| schema := Sample.parsedSchema; creditsRemaining := -1 |}
  /\ storedBalance Sample.shopId
       (after (generateProductSchema RouteSample.envRace Sample.input (Sample.db 1)))
     = Some (-1).
Proof.
  assert (Hrow : shops (Sample.db 1) !! GenerateSchemaInput.shopId Sample.input
                 = Some (Sample.tenant 1)) by (vm_compute; reflexivity).
  split; [exact Hrow|].
  assert (Hpos : 0 < credits (Sample.tenant 1)) by (cbn; lia).
  destruct (concurrent_debit_overdraws RouteSample.envRace Sample.input (Sample.db 1)
              (Sample.tenant 1) 1 Sample.parsedSchema Hrow Hpos eq_refl eq_refl)
    as (Hrun & Hstored & _).
  split; [exact Hrun | exact Hstored].
Defined.

(** X25. A top-up reopens the gate.  With no other writer, a tenant whose
    balance [b] is zero or less and who is credited an amount that brings
    it above zero is admitted at the next call: a valid generation fulfils
    with [creditsRemaining = b + amount - 1]. *)
Theorem top_up_reopens_the_gate
    (env : Env) (input : GenerateSchemaInput.t) (db : Db) (b amount : Z)
    (valid : ProductSchema.t) :
  let shopId := GenerateSchemaInput.shopId input in
  let topped := after (addCredits shopId amount db) in
  quiet env ->
  storedBalance shopId db = Some b ->
  b <= 0 ->
  0 < b + amount ->
  validated ProductSchemaZod (model_output env (requestOf input)) = Fulfilled valid ->
  settled (generateProductSchema env input db) = Rejected PaymentRequired
  /\ settled (generateProductSchema env input topped)
     = Fulfilled {| schema := valid; creditsRemaining := b + amount - 1 |}.
Proof.
  intros shopId topped Hquiet Hstored Hb Hpos Hvalid. subst topped.
  unfold storedBalance in Hstored.
  destruct (shops db !! shopId) as [row|] eqn:Hrow; [|discriminate].
  injection Hstored as Hcredits. split.
  - rewrite generateProductSchema_unfold. fold shopId. cbv zeta.
    rewrite (checkBalance_existing _ _ _ Hrow). cbn [settled after calls hasCredits].
    assert (Hno : (0 <? credits row) = false) by (apply Z.ltb_ge; lia).
    rewrite Hno. reflexivity.
  - rewrite (addCredits_existing _ _ _ _ Hrow). cbn [after].
    set (db' := with_shops db _).
    assert (Hrow' : shops db' !! shopId = Some (set_credits row (credits row + amount))).
    { subst db'. cbn. apply lookup_insert_eq. }
    destruct (quiet_success env input db' db'
                {| hasCredits := 0 <? credits row + amount; balance := credits row + amount |}
                valid Hquiet) as (Hrun & _).
    { fold shopId. rewrite (checkBalance_existing _ _ _ Hrow'). reflexivity. }
    { fold shopId. rewrite (checkBalance_existing _ _ _ Hrow'). reflexivity. }
    { cbn. lia. }
    { exact Hvalid. }
    rewrite Hrun. cbn [balance]. rewrite Hcredits. reflexivity.
Qed.

Lemma top_up_reopens_the_gate_witness :
  quiet Sample.envOk
  /\ storedBalance (GenerateSchemaInput.shopId Sample.input) (Sample.db 0) = Some 0
  /\ settled (generateProductSchema Sample.envOk Sample.input (Sample.db 0))
     = Rejected PaymentRequired
  /\ settled (generateProductSchema Sample.envOk Sample.input
                (after (addCredits Sample.shopId 3 (Sample.db 0))))
     = Fulfilled {| schema := Sample.parsedSchema; creditsRemaining := 2 |}.
Proof.
  assert (Hquiet : quiet Sample.envOk) by (intros db; reflexivity).
  assert (Hstored : storedBalance (GenerateSchemaInput.shopId Sample.input) (Sample.db 0)
                    = Some 0) by (vm_compute; reflexivity).
  split; [exact Hquiet|]. split; [exact Hstored|].
  assert (Hb : 0 <= 0) by lia.
  assert (Hpos : 0 < 0 + 3) by lia.
  exact (top_up_reopens_the_gate Sample.envOk Sample.input (Sample.db 0) 0 3
           Sample.parsedSchema Hquiet Hstored Hb Hpos eq_refl).
Defined.

(** X26. The onboarding action writes only when it has what it needs.  A
    [generate] without a brand tone or without a product text, an [approve]
    without a brand tone, and any other intent render an error text and
    leave the database and the services alone. *)
Theorem action_without_its_fields_writes_nothing
    (parse : string -> Settled ProductData.t) (env : Env) (shopDomain : string)
    (form : FormData.t) (db : Db) :
  let visit := Onboarding.action parse env shopDomain form db in
  (FormData.intent form = Some "generate"%string ->
   FormData.brandTone form = None \/ FormData.product form = None
   \/ FormData.product form = Some EmptyString ->
   visit = {| response := Rendered (Onboarding.failed "Missing required fields");
              database := db; crossings := [] |})
  /\ (FormData.intent form = Some "approve"%string ->
      FormData.brandTone form = None ->
      visit = {| response := Rendered (Onboarding.failed "Please select a brand tone first");
                 database := db; crossings := [] |})
  /\ (Onboarding.intent_is form "generate" = false ->
      Onboarding.intent_is form "approve" = false ->
      visit = {| response := Rendered (Onboarding.failed "Unknown action");
                 database := db; crossings := [] |}).
Proof.
  intros visit. subst visit. unfold Onboarding.action. repeat split.
  - intros Hintent Hmissing. unfold Onboarding.intent_is. rewrite Hintent.
    change (String.eqb "generate" "generate") with true. cbv iota.
    destruct Hmissing as [-> | [-> | ->]]; [reflexivity | |].
    + destruct (FormData.brandTone form); reflexivity.
    + destruct (FormData.brandTone form); reflexivity.
  - intros Hintent Htone. destruct (intent_is_approve form Hintent) as [-> ->].
    rewrite Htone. reflexivity.
  - intros -> ->. reflexivity.
Qed.
